(** * Container and satellite managers of the rce framework

    A shallow embedding of
    [framework/Administration/src/ContainerUtil/Manager.py] and
    [framework/Administration/src/SatelliteUtil/Manager.py].

    Python objects become records, instance methods become functions on an
    explicit state, exceptions become the [Raise] outcome of a small
    state-and-exception monad, and everything the managers reach through the
    operating system or through Twisted (file system, log, spawned processes,
    sent messages, deferreds) is part of that state. *)

From Stdlib Require Import String Ascii ZArith List.
From stdpp Require Import base option list gmap strings fin_maps.
Import ListNotations.
Local Open Scope string_scope.
Local Open Scope list_scope.

(** ** Python values and outcomes *)

Module Py.

(** The exceptions the two managers can raise or meet. *)
Inductive exn : Type :=
| ValueError (msg : string)
| OSError (msg : string)
| IOError (msg : string)
| IndexError (msg : string)
| TypeError (msg : string)
| AttributeError (msg : string)
| AlreadyCalledError
| InvalidRequest (msg : string)
| InternalError (msg : string).

(** Outcome of running a method on a state of type [S]: a returned value
    with the state reached, or a raised exception with the state reached
    when it was raised (mutations made before a [raise] persist). *)
Inductive outcome (S A : Type) : Type :=
| Ok (a : A) (s : S)
| Raise (e : exn) (s : S).
Arguments Ok {S A} a s.
Arguments Raise {S A} e s.

Definition M (S A : Type) : Type := S -> outcome S A.

Definition ret {S A} (a : A) : M S A := fun s => Ok a s.
Definition raise {S A} (e : exn) : M S A := fun s => Raise e s.
Definition bind {S A B} (m : M S A) (k : A -> M S B) : M S B :=
  fun s => match m s with
           | Ok a s' => k a s'
           | Raise e s' => Raise e s'
           end.
Definition get {S} : M S S := fun s => Ok s s.
Definition modify {S} (f : S -> S) : M S unit := fun s => Ok tt (f s).

Definition state_of {S A} (o : outcome S A) : S :=
  match o with Ok _ s => s | Raise _ s => s end.

Definition returned {S A} (o : outcome S A) : Prop :=
  match o with Ok _ _ => True | Raise _ _ => False end.

Definition raised {S A} (o : outcome S A) : option exn :=
  match o with Ok _ _ => None | Raise e _ => Some e end.

(** [for x in l: body x] *)
Fixpoint for_each {S A} (l : list A) (body : A -> M S unit) : M S unit :=
  match l with
  | [] => ret tt
  | x :: l' => bind (body x) (fun _ => for_each l' body)
  end.

(** [[body x for x in l]] *)
Fixpoint map_each {S A B} (l : list A) (body : A -> M S B) : M S (list B) :=
  match l with
  | [] => ret []
  | x :: l' =>
      bind (body x) (fun y => bind (map_each l' body) (fun ys => ret (y :: ys)))
  end.

(** [l.pop()]: the last item and the list without it; [None] stands for
    the [IndexError] on an empty list. *)
Fixpoint pop {A} (l : list A) : option (A * list A) :=
  match l with
  | [] => None
  | [x] => Some (x, [])
  | x :: l' =>
      match pop l' with
      | Some (y, r) => Some (y, x :: r)
      | None => None
      end
  end.

(** [preserves proj m]: running [m] never changes the part [proj] of the
    state, whether [m] returns or raises. *)
Definition preserves {S A B} (proj : S -> B) (m : M S A) : Prop :=
  forall s, proj (state_of (m s)) = proj s.

(** [returns m]: [m] never raises. *)
Definition returns {S A} (m : M S A) : Prop :=
  forall s, returned (m s).

Definition nl : string := String (ascii_of_nat 10) EmptyString.
Definition tab : string := String (ascii_of_nat 9) EmptyString.
Definition dquote : string := String (ascii_of_nat 34) EmptyString.

(** [sep.join(l)] *)
Fixpoint join (sep : string) (l : list string) : string :=
  match l with
  | [] => ""
  | [x] => x
  | x :: l' => x +:+ sep +:+ join sep l'
  end.

(** [x in l] on a list of strings. *)
Definition contains (x : string) (l : list string) : bool :=
  bool_decide (x ∈ l).

End Py.

Notation "x <- m ;; k" := (Py.bind m (fun x => k))
  (at level 100, m at next level, k at level 200, right associativity).
Notation "m ;;; k" := (Py.bind m (fun _ => k))
  (at level 100, k at level 200, right associativity).

(** ** The host file system, as [os], [os.path] and [shutil] see it *)

Module OS.

Inductive node : Type :=
| Dir
| File (content : string).

(** Paths are the keys, compared as written: no normalisation of doubled
    or trailing slashes, no [.] or [..], no symbolic links. *)
Abbreviation filesystem := (gmap string node).

Definition is_slash (c : ascii) : bool := Ascii.eqb c "/"%char.

Definition startswith_slash (p : string) : bool :=
  match p with
  | String c _ => is_slash c
  | EmptyString => false
  end.

Fixpoint endswith_slash (p : string) : bool :=
  match p with
  | EmptyString => false
  | String c EmptyString => is_slash c
  | String _ r => endswith_slash r
  end.

(** [os.path.isabs] *)
Definition isabs (p : string) : bool := startswith_slash p.

(** One round of the loop of [posixpath.join]. *)
Definition join2 (path b : string) : string :=
  if startswith_slash b then b
  else if (String.eqb path "" || endswith_slash path)%bool then path +:+ b
  else path +:+ "/" +:+ b.

(** [os.path.join(a, *p)] *)
Definition join (a : string) (p : list string) : string :=
  fold_left join2 p a.

(** [p[:p.rfind('/') + 1]] *)
Fixpoint head_of (p : string) : string :=
  match p with
  | EmptyString => EmptyString
  | String c r =>
      match head_of r with
      | EmptyString => if is_slash c then String c EmptyString else EmptyString
      | h => String c h
      end
  end.

(** [s.rstrip('/')] *)
Fixpoint rstrip_slash (s : string) : string :=
  match s with
  | EmptyString => EmptyString
  | String c r =>
      match rstrip_slash r with
      | EmptyString => if is_slash c then EmptyString else String c EmptyString
      | r' => String c r'
      end
  end.

(** [os.path.dirname] *)
Definition dirname (p : string) : string :=
  let head := head_of p in
  match rstrip_slash head with
  | EmptyString => head
  | h => h
  end.

(** [os.path.isdir] *)
Definition isdir (fs : filesystem) (p : string) : bool :=
  match fs !! p with
  | Some Dir => true
  | _ => false
  end.

(** The directory an entry is created in must exist; a relative name with
    no directory part lives in the working directory. *)
Definition parent_ok (fs : filesystem) (p : string) : bool :=
  match dirname p with
  | EmptyString => true
  | d => isdir fs d
  end.

(** [os.mkdir(p)]: fails when [p] exists or its parent is missing. *)
Definition mkdir (p : string) (fs : filesystem) : Py.exn + filesystem :=
  match fs !! p with
  | Some _ => inl (Py.OSError "File exists")
  | None =>
      if parent_ok fs p then inr (<[p := Dir]> fs)
      else inl (Py.OSError "No such file or directory")
  end.

(** [with open(p, 'w') as f: f.write(content)] *)
Definition write_file (p content : string) (fs : filesystem)
  : Py.exn + filesystem :=
  match fs !! p with
  | Some Dir => inl (Py.IOError "Is a directory")
  | _ =>
      if parent_ok fs p then inr (<[p := File content]> fs)
      else inl (Py.IOError "No such file or directory")
  end.

(** [q] lies strictly below the directory [p]. *)
Definition below (p q : string) : bool :=
  String.prefix (if endswith_slash p then p else p +:+ "/") q.

(** [shutil.rmtree(p)]: removes [p] and everything below it; fails when
    [p] is not a directory. *)
Definition rmtree (p : string) (fs : filesystem) : Py.exn + filesystem :=
  if isdir fs p
  then inr (filter (fun kv => negb (String.eqb kv.1 p) && negb (below p kv.1) = true) fs)
  else inl (Py.OSError "No such file or directory").

End OS.

(** ** Messages of the communication layer ([Comm.Message]) *)

Module Comm.

Inductive MsgTypes : Type :=
| ID_REQUEST | ID_RESPONSE | ID_DELETE | CONNECT_DIRECTIVE
| START_CONTAINER | STOP_CONTAINER | ROUTE_INFO
| ROS_ADD | ROS_REMOVE | ROS_MSG.

(** Destination of a message: [MsgDef.MASTER_ADDR] or a plain address. *)
Inductive dest : Type :=
| MASTER_ADDR
| Addr (a : string).

Record Message : Type := {
  msgType : MsgTypes;
  msgDest : dest;
  content : option string
}.

End Comm.

(** ** [ContainerUtil/Manager.py] *)

Module ContainerManager.

(** Results that travel along a chain of Twisted callbacks. The [reason]
    a [ProcessProtocol] receives carries the exit code of the process;
    [failure] tells whether the object is a [Failure], in which case a
    [Deferred] runs the errback side of its chain. *)
Inductive value : Type :=
| VNone
| VReason (exitCode : Z) (failure : bool)
| VFailure (e : Py.exn)
| VResultList (outcomes : list (option bool)).

Definition is_Failure (v : value) : bool :=
  match v with
  | VFailure _ => true
  | VReason _ f => f
  | _ => false
  end.

Inductive logentry : Type :=
| LogMsg (s : string)
| LogObj (v : value).

(** The closures handed to [addCallback], one constructor per closure. *)
Inductive callback : Type :=
| start_callback                      (* [callback] in [_startContainer] *)
| stop_callback (commID : string)     (* [callback] in [_stopContainer] *)
| cbDeferred (index : nat).           (* [DeferredList._cbDeferred], both sides *)

Record Deferred : Type := {
  callbacks : list callback;
  called : bool;
  result : value
}.

(** A call of [reactor.spawnProcess(LXCProtocol(deferred), cmd[0], cmd)]. *)
Record process : Type := {
  executable : string;
  argv : list string;
  protocol : nat;      (* the deferred held by the [LXCProtocol] *)
  ended : bool
}.

(** Callbacks of the [DeferredList] built by [shutdown]. *)
Inductive list_callback : Type :=
| event_set.                          (* the bound method [event.set] *)

(** The locals of a running [shutdown] call: the [Event] and the
    [DeferredList] over the deferreds of the stop commands. *)
Record frame : Type := {
  event : bool;
  resultList : list (option bool);
  finishedCount : nat;
  list_called : bool;
  list_result : value;
  list_callbacks : list list_callback
}.

Record state : Type := {
  (* the object *)
  _confDir : string;
  _rootfs : string;
  _srcRoot : string;
  _commIDs : list string;
  (* what it acts on *)
  fs : OS.filesystem;
  log : list logentry;
  deferreds : list Deferred;
  spawned : list process;
  sent : list Comm.Message;
  shutting_down : option frame
}.

Definition set_commIDs (f : list string -> list string) (s : state) : state :=
  {| _confDir := _confDir s; _rootfs := _rootfs s; _srcRoot := _srcRoot s;
     _commIDs := f (_commIDs s); fs := fs s; log := log s;
     deferreds := deferreds s; spawned := spawned s; sent := sent s;
     shutting_down := shutting_down s |}.

Definition set_fs (f : OS.filesystem -> OS.filesystem) (s : state) : state :=
  {| _confDir := _confDir s; _rootfs := _rootfs s; _srcRoot := _srcRoot s;
     _commIDs := _commIDs s; fs := f (fs s); log := log s;
     deferreds := deferreds s; spawned := spawned s; sent := sent s;
     shutting_down := shutting_down s |}.

Definition set_log (f : list logentry -> list logentry) (s : state) : state :=
  {| _confDir := _confDir s; _rootfs := _rootfs s; _srcRoot := _srcRoot s;
     _commIDs := _commIDs s; fs := fs s; log := f (log s);
     deferreds := deferreds s; spawned := spawned s; sent := sent s;
     shutting_down := shutting_down s |}.

Definition set_deferreds (f : list Deferred -> list Deferred) (s : state) : state :=
  {| _confDir := _confDir s; _rootfs := _rootfs s; _srcRoot := _srcRoot s;
     _commIDs := _commIDs s; fs := fs s; log := log s;
     deferreds := f (deferreds s); spawned := spawned s; sent := sent s;
     shutting_down := shutting_down s |}.

Definition set_spawned (f : list process -> list process) (s : state) : state :=
  {| _confDir := _confDir s; _rootfs := _rootfs s; _srcRoot := _srcRoot s;
     _commIDs := _commIDs s; fs := fs s; log := log s;
     deferreds := deferreds s; spawned := f (spawned s); sent := sent s;
     shutting_down := shutting_down s |}.

Definition set_frame (f : option frame -> option frame) (s : state) : state :=
  {| _confDir := _confDir s; _rootfs := _rootfs s; _srcRoot := _srcRoot s;
     _commIDs := _commIDs s; fs := fs s; log := log s;
     deferreds := deferreds s; spawned := spawned s; sent := sent s;
     shutting_down := f (shutting_down s) |}.

(** [log.msg(x)] *)
Definition log_msg (e : logentry) : Py.M state unit :=
  Py.modify (set_log (fun l => l ++ [e])).

(** Lifts a file-system operation: its error becomes a raised exception. *)
Definition on_fs (op : OS.filesystem -> Py.exn + OS.filesystem)
  : Py.M state unit :=
  fun s => match op (fs s) with
           | inr fs' => Py.Ok tt (set_fs (fun _ => fs') s)
           | inl e => Py.Raise e s
           end.

(** [ContainerManager.__init__] on a host with the file system [disk]: the
    three directories come from the [settings] module, which is not part
    of the sources and is taken as the arguments. *)
Definition init (CONF_DIR ROOTFS ROOT_DIR : string) (disk : OS.filesystem)
  : Py.exn + state :=
  if negb (OS.isabs CONF_DIR)
  then inl (Py.ValueError "Configuration directory is not an absolute path.")
  else if negb (OS.isabs ROOTFS)
  then inl (Py.ValueError "Root file system directory is not an absolute path.")
  else if negb (OS.isabs ROOT_DIR)
  then inl (Py.ValueError "Root source directory is not an absolute path.")
  else inr {| _confDir := CONF_DIR; _rootfs := ROOTFS; _srcRoot := ROOT_DIR;
              _commIDs := []; fs := disk; log := [];
              deferreds := []; spawned := []; sent := [];
              shutting_down := None |}.

(** *** The three generated files *)

Definition config_content (self : state) (commID : string) : string :=
  Py.join Py.nl
    [ "lxc.utsname = ros";
      "";
      "lxc.tty = 4";
      "lxc.pts = 1024";
      "lxc.rootfs = " +:+ _rootfs self;
      "lxc.mount = " +:+ OS.join (_confDir self) [commID; "fstab"];
      "";
      "lxc.network.type = veth";
      "lxc.network.flags = up";
      "lxc.network.name = eth0";
      "lxc.network.link = br0";
      "lxc.network.ipv4 = 0.0.0.0";
      "";
      "lxc.cgroup.devices.deny = a";
      "# /dev/null and zero";
      "lxc.cgroup.devices.allow = c 1:3 rwm";
      "lxc.cgroup.devices.allow = c 1:5 rwm";
      "# consoles";
      "lxc.cgroup.devices.allow = c 5:1 rwm";
      "lxc.cgroup.devices.allow = c 5:0 rwm";
      "lxc.cgroup.devices.allow = c 4:0 rwm";
      "lxc.cgroup.devices.allow = c 4:1 rwm";
      "# /dev/{,u}random";
      "lxc.cgroup.devices.allow = c 1:9 rwm";
      "lxc.cgroup.devices.allow = c 1:8 rwm";
      "lxc.cgroup.devices.allow = c 136:* rwm";
      "lxc.cgroup.devices.allow = c 5:2 rwm";
      "# rtc";
      "lxc.cgroup.devices.allow = c 254:0 rwm";
      "" ].

Definition _createConfigFile (commID : string) : Py.M state unit :=
  self <- Py.get ;;
  on_fs (OS.write_file (OS.join (_confDir self) [commID; "config"])
                       (config_content self commID)).

Definition fstab_content (self : state) (commID homeDir : string) : string :=
  Py.join Py.nl
    [ "proc     " +:+ OS.join (_rootfs self) ["proc"]
        +:+ "      proc     nodev,noexec,nosuid 0 0";
      "devpts   " +:+ OS.join (_rootfs self) ["dev/pts"]
        +:+ "   devpts   defaults            0 0";
      "sysfs    " +:+ OS.join (_rootfs self) ["sys"]
        +:+ "       sysfs    defaults            0 0";
      homeDir +:+ "   " +:+ OS.join (_rootfs self) ["home/ros"]
        +:+ "   none   bind 0 0";
      _srcRoot self +:+ "   " +:+ OS.join (_rootfs self) ["opt/reappengine"]
        +:+ "   none   bind,ro 0 0";
      OS.join (_confDir self) [commID; "upstart"] +:+ "   "
        +:+ OS.join (_rootfs self) ["etc/init/reappengine.conf"]
        +:+ "   none   bind,ro 0 0";
      "" ].

Definition _createFstabFile (commID homeDir : string) : Py.M state unit :=
  if negb (OS.isabs homeDir)
  then Py.raise (Py.ValueError "Home directory is not an absoulte path.")
  else
    self <- Py.get ;;
    on_fs (OS.write_file (OS.join (_confDir self) [commID; "fstab"])
                         (fstab_content self commID homeDir)).

(** The words of the command line that starts the program inside the
    container; [str(8090)] is ["8090"]. *)
Definition upstart_command : list string :=
  [ "start-stop-daemon";
    "-c"; "ros:ros";
    "-d"; "/home/ros";
    "--retry"; "5";
    "--exec"; "python";
    "--";
    "/home/ros/lib/framework/Administration/src/Dummy.py";
    "8090" ].

Definition upstart_lines : list string :=
  [ "# description";
    "author " +:+ Py.dquote +:+ "Dominique Hunziker" +:+ Py.dquote;
    "description " +:+ Py.dquote
      +:+ "reappengine - ROS framework for managing and using ROS nodes"
      +:+ Py.dquote;
    "";
    "# start/stop conditions";
    "start on runlevel [2345]";
    "stop on runlevel [016])";
    "";
    "# timeout before the process is killed; generous as a lot of processes have";
    "# to be terminated by the reappengine";
    "kill timeout 30";
    "";
    "script";
    Py.tab +:+ "# setup environment";
    Py.tab +:+ ". /etc/environment";
    Py.tab;
    Py.tab +:+ "# start environment node";
    Py.tab +:+ Py.join " " upstart_command;
    "end script";
    "" ].

Definition upstart_content : string := Py.join Py.nl upstart_lines.

Definition _createUpstartScript (commID : string) : Py.M state unit :=
  self <- Py.get ;;
  on_fs (OS.write_file (OS.join (_confDir self) [commID; "upstart"])
                       upstart_content).

(** *** Deferreds *)

(** [Deferred()] *)
Definition Deferred_new : Py.M state nat :=
  fun s =>
    Py.Ok (length (deferreds s))
          (set_deferreds
             (fun l => l ++ [{| callbacks := []; called := false; result := VNone |}])
             s).

(** A raised exception inside a callback becomes the [Failure] result of
    the chain. *)
Definition catch (o : Py.outcome state value) : value * state :=
  match o with
  | Py.Ok v s => (v, s)
  | Py.Raise e s => (VFailure e, s)
  end.

(** [callback(reason)] of [_startContainer]. *)
Definition start_callback_body (reason : value) : Py.M state value :=
  match reason with
  | VReason exitCode _ =>
      (if negb (exitCode =? 0)%Z then log_msg (LogObj reason) else Py.ret tt) ;;;
      Py.ret VNone
  | _ => Py.raise (Py.AttributeError "value")
  end.

(** [callback(reason)] of [_stopContainer]. *)
Definition stop_callback_body (commID : string) (reason : value)
  : Py.M state value :=
  match reason with
  | VReason exitCode _ =>
      (if negb (exitCode =? 0)%Z then log_msg (LogObj reason) else Py.ret tt) ;;;
      self <- Py.get ;;
      on_fs (OS.rmtree (OS.join (_confDir self) [commID])) ;;;
      Py.ret VNone
  | _ => Py.raise (Py.AttributeError "value")
  end.

(** [Event.set(self)]: the method takes no argument besides [self]. *)
Definition Event_set (args : list value) (fr : frame) : Py.exn + frame :=
  match args with
  | [] => inr {| event := true; resultList := resultList fr;
                 finishedCount := finishedCount fr;
                 list_called := list_called fr;
                 list_result := list_result fr;
                 list_callbacks := list_callbacks fr |}
  | _ => inl (Py.TypeError "set() takes exactly 1 argument (2 given)")
  end.

(** One entry of the chain of the [DeferredList]; [addCallback] adds a
    callback only, so a [Failure] passes through. The callback is called
    with the current result as its argument. *)
Definition run_list_callback (acc : value * frame) (cb : list_callback)
  : value * frame :=
  let '(v, fr) := acc in
  if is_Failure v then (v, fr)
  else match cb with
       | event_set =>
           match Event_set [v] fr with
           | inr fr' => (VNone, fr')
           | inl e => (VFailure e, fr)
           end
       end.

Definition run_list_callbacks (fr : frame) : frame :=
  let '(v, fr') := fold_left run_list_callback (list_callbacks fr)
                             (list_result fr, fr) in
  {| event := event fr'; resultList := resultList fr';
     finishedCount := finishedCount fr'; list_called := list_called fr';
     list_result := v; list_callbacks := [] |}.

(** [DeferredList.callback(result)] *)
Definition DeferredList_callback (v : value) (fr : frame) : frame :=
  run_list_callbacks
    {| event := event fr; resultList := resultList fr;
       finishedCount := finishedCount fr; list_called := true;
       list_result := v; list_callbacks := list_callbacks fr |}.

(** [DeferredList.addCallback(cb)]: runs at once when the list has fired. *)
Definition DeferredList_addCallback (cb : list_callback) (fr : frame) : frame :=
  let fr1 := {| event := event fr; resultList := resultList fr;
                finishedCount := finishedCount fr;
                list_called := list_called fr; list_result := list_result fr;
                list_callbacks := list_callbacks fr ++ [cb] |} in
  if list_called fr1 then run_list_callbacks fr1 else fr1.

(** [DeferredList._cbDeferred(result, index, succeeded)] *)
Definition _cbDeferred (index : nat) (v : value) (fr : frame) : frame :=
  let fr1 := {| event := event fr;
                resultList := <[index := Some (negb (is_Failure v))]> (resultList fr);
                finishedCount := S (finishedCount fr);
                list_called := list_called fr; list_result := list_result fr;
                list_callbacks := list_callbacks fr |} in
  if (negb (list_called fr1)
      && (finishedCount fr1 =? length (resultList fr1))%nat)%bool
  then DeferredList_callback (VResultList (resultList fr1)) fr1
  else fr1.

(** One entry of the chain of a plain deferred. The closures were added
    with [addCallback] and are skipped on a [Failure]; [_cbDeferred] was
    added on both sides and returns the result it was given. *)
Definition run_callback (acc : value * state) (cb : callback) : value * state :=
  let '(v, s) := acc in
  match cb with
  | cbDeferred index => (v, set_frame (fmap (_cbDeferred index v)) s)
  | start_callback =>
      if is_Failure v then (v, s) else catch (start_callback_body v s)
  | stop_callback commID =>
      if is_Failure v then (v, s) else catch (stop_callback_body commID v s)
  end.

(** [deferred.addCallback(cb)] (for [_cbDeferred]: [addCallbacks]). *)
Definition Deferred_addCallback (d : nat) (cb : callback) : Py.M state unit :=
  fun s =>
    match deferreds s !! d with
    | None => Py.Ok tt s
    | Some D =>
        if called D then
          let '(v, s') := run_callback (result D, s) cb in
          Py.Ok tt (set_deferreds
                      <[d := {| callbacks := []; called := true; result := v |}]> s')
        else
          Py.Ok tt (set_deferreds
                      <[d := {| callbacks := callbacks D ++ [cb];
                                called := false; result := result D |}]> s)
    end.

(** [deferred.callback(v)] *)
Definition Deferred_callback (d : nat) (v : value) (s : state) : state :=
  match deferreds s !! d with
  | None => s
  | Some D =>
      if called D then s    (* AlreadyCalledError, not met: one deferred per process *)
      else
        let '(v', s') := fold_left run_callback (callbacks D) (v, s) in
        set_deferreds
          <[d := {| callbacks := []; called := true; result := v' |}]> s'
  end.

(** [reactor.spawnProcess(LXCProtocol(deferred), cmd[0], cmd, env=os.environ)] *)
Definition spawnProcess (deferred : nat) (cmd : list string) : Py.M state unit :=
  Py.modify (set_spawned (fun l =>
    l ++ [{| executable := hd "" cmd; argv := cmd;
             protocol := deferred; ended := false |}])).

(** *** Starting and stopping containers *)

Definition _startContainer (commID homeDir : string) : Py.M state unit :=
  self <- Py.get ;;
  let confDir := OS.join (_confDir self) [commID] in
  if OS.isdir (fs self) confDir then
    log_msg (LogMsg ("There exists already a directory with the name "
                       +:+ Py.dquote +:+ commID +:+ Py.dquote +:+ "."))
  else
    on_fs (OS.mkdir confDir) ;;;
    log_msg (LogMsg "Create files...") ;;;
    _createConfigFile commID ;;;
    _createFstabFile commID homeDir ;;;
    _createUpstartScript commID ;;;
    deferred <- Deferred_new ;;
    Deferred_addCallback deferred start_callback ;;;
    log_msg (LogMsg "Start container...") ;;;
    let cmd := [ "/usr/bin/lxc-start";
                 "-n"; commID;
                 "-f"; OS.join (_confDir self) [commID; "config"];
                 "-d" ] in
    (* the source has the spawnProcess call on [cmd] commented out *)
    Py.ret tt.

Definition startContainer (commID homeDir : string) : Py.M state unit :=
  self <- Py.get ;;
  if Py.contains commID (_commIDs self) then
    log_msg (LogMsg "There is already a container registered under the same CommID.")
  else
    Py.modify (set_commIDs (fun l => l ++ [commID])) ;;;
    _startContainer commID homeDir.

Definition _stopContainer (commID : string) : Py.M state nat :=
  deferred <- Deferred_new ;;
  Deferred_addCallback deferred (stop_callback commID) ;;;
  let cmd := ["/usr/bin/lxc-stop"; "-n"; commID] in
  spawnProcess deferred cmd ;;;
  Py.ret deferred.

(** *** Shutdown *)

(** [event = Event()]: a fresh, unset flag. The frame it opens also holds
    the [DeferredList] that [shutdown] builds next. *)
Definition Event_new : Py.M state unit :=
  Py.modify (set_frame (fun _ =>
    Some {| event := false; resultList := []; finishedCount := 0;
            list_called := false; list_result := VNone;
            list_callbacks := [] |})).

Definition on_frame (f : frame -> frame) : Py.M state unit :=
  Py.modify (set_frame (fmap f)).

(** [DeferredList(ds)]: the result list has one empty slot per deferred;
    an empty list fires at once; every deferred gets [_cbDeferred] with
    its index. *)
Definition DeferredList_new (ds : list nat) : Py.M state unit :=
  on_frame (fun fr =>
    let fr0 := {| event := event fr;
                  resultList := replicate (length ds) None;
                  finishedCount := 0; list_called := false;
                  list_result := VNone; list_callbacks := [] |} in
    if (length ds =? 0)%nat
    then DeferredList_callback (VResultList (resultList fr0)) fr0
    else fr0) ;;;
  Py.for_each (imap (fun index d => (index, d)) ds)
    (fun '(index, d) => Deferred_addCallback d (cbDeferred index)).

(** The body of [shutdown] up to the call of [event.wait()]. *)
Definition shutdown_enter : Py.M state unit :=
  Event_new ;;;
  self <- Py.get ;;
  deferreds <- Py.map_each (_commIDs self) _stopContainer ;;
  DeferredList_new deferreds ;;;
  on_frame (DeferredList_addCallback event_set).

(** Where a call of [shutdown] stands. *)
Inductive run : Type :=
| Waiting (s : state)       (* inside [event.wait()] *)
| Returned (s : state)
| Failed (e : Py.exn) (s : state).

Definition event_is_set (s : state) : bool :=
  match shutting_down s with
  | Some fr => event fr
  | None => false
  end.

(** [event.wait()] returns once the flag is set. *)
Definition Event_wait (s : state) : run :=
  if event_is_set s then Returned s else Waiting s.

Definition shutdown (s : state) : run :=
  match shutdown_enter s with
  | Py.Ok _ s' => Event_wait s'
  | Py.Raise e s' => Failed e s'
  end.

(** What the reactor can deliver while [shutdown] waits: the end of a
    spawned process, with the exit code and the kind of the [reason]
    object. *)
Inductive reactor_event : Type :=
| ProcessEnded (pid : nat) (exitCode : Z) (failure : bool).

Definition mark_ended (pid : nat) (p : process) : state -> state :=
  set_spawned <[pid := {| executable := executable p; argv := argv p;
                          protocol := protocol p; ended := true |}]>.

(** [LXCProtocol.processEnded(reason)]: [self._deferred.callback(reason)]. *)
Definition processEnded (pid : nat) (reason : value) (s : state) : state :=
  match spawned s !! pid with
  | Some p =>
      if ended p then s
      else Deferred_callback (protocol p) reason (mark_ended pid p s)
  | None => s
  end.

(** The waiting call after one more event: the callbacks run, and the
    wait is over if they set the flag. *)
Definition deliver (r : run) (ev : reactor_event) : run :=
  match r, ev with
  | Waiting s, ProcessEnded pid exitCode failure =>
      Event_wait (processEnded pid (VReason exitCode failure) s)
  | _, _ => r
  end.

(** *** Predicates on operations *)

(** A part of the state that the registered addresses, the file system,
    the log, the deferreds and everything in the frame of [shutdown] but
    its event have no bearing on. *)
Record stable {B} (proj : state -> B) : Prop := {
  stable_commIDs : forall f s, proj (set_commIDs f s) = proj s;
  stable_fs : forall f s, proj (set_fs f s) = proj s;
  stable_log : forall f s, proj (set_log f s) = proj s;
  stable_deferreds : forall f s, proj (set_deferreds f s) = proj s;
  stable_frame : forall (f : frame -> frame) s,
    (forall fr, event (f fr) = event fr) ->
    proj (set_frame (fmap f) s) = proj s
}.

(** The words of a command line after [--]: the program and its
    arguments. *)
Fixpoint after_dashes (l : list string) : list string :=
  match l with
  | [] => []
  | x :: l' => if String.eqb x "--" then l' else after_dashes l'
  end.

(** The command that stops the container [commID]. *)
Definition lxc_stop (commID : string) : list string :=
  ["/usr/bin/lxc-stop"; "-n"; commID].

(** What the spec asks of a start request on an address whose directory
    exists, from the state [s] before to the state [s'] after: the error
    is logged, the address is registered no longer, and a message of type
    [ID_DELETE] for it has been sent. *)
Definition aborted_and_released (commID : string) (s s' : state) : Prop :=
  (length (log s) < length (log s'))
  /\ (commID ∉ _commIDs s')
  /\ exists m, m ∈ sent s' /\ Comm.msgType m = Comm.ID_DELETE
               /\ Comm.content m = Some commID.

(** *** A host to run examples on *)

(** A manager configured with [/conf], [/rootfs] and [/src], on a host
    where the given directories exist. *)
Definition host (registered dirs : list string) : state :=
  {| _confDir := "/conf"; _rootfs := "/rootfs"; _srcRoot := "/src";
     _commIDs := registered;
     fs := list_to_map ((fun d => (d, OS.Dir)) <$> dirs);
     log := []; deferreds := []; spawned := []; sent := [];
     shutting_down := None |}.

End ContainerManager.

(** ** [SatelliteUtil/Manager.py] *)

Module SatelliteManager.

(** Modelled from the spec: the class [Container] (module [_Container]) is
    not part of the sources. A record has the satellite-unique address,
    the owning robot, the home directory on the host, the connected flag
    (false by default) and the nodes currently loaded. *)
Record Container : Type := {
  address : string;
  ownerRobot : string;
  homeDir : string;
  connected : bool;
  nodes : list string
}.

(** Modelled from the spec: [Container.checkOwner], absent with its class:
    true only if the robot is the owner of the record. *)
Definition Container_checkOwner (c : Container) (robotID : string) : bool :=
  String.eqb robotID (ownerRobot c).

(** Modelled from the spec: [Container.setConnectedFlag], absent with its
    class: updates the connected flag of the record. *)
Definition Container_setConnectedFlag (c : Container) (flag : bool) : Container :=
  {| address := address c; ownerRobot := ownerRobot c; homeDir := homeDir c;
     connected := flag; nodes := nodes c |}.

(** The other methods of [Container] act outside the manager; a call is
    recorded with the key of the container and its arguments. *)
Inductive container_call : Type :=
| Call_start (commID : string)                     (* [start(commMngr)] *)
| Call_stop (commID : string) (commMngr : bool)    (* [stop(commMngr)] or [stop()] *)
| Call_addNode (commID nodeID config : string)
| Call_removeNode (commID nodeID : string)
| Call_send (commID msg interfaceName robotID : string)
| Call_receive (commID msg interfaceName robotID : string).

(** What the module imports from modules that are not part of the
    sources and that the spec does not fix: the address validator of
    [Comm.CommUtil] (its lengths and alphabet are configuration) and the
    constructor [Container(commID, homeFolder)]. *)
Class Imports : Type := {
  validateAddress : string -> bool;
  Container_init : string -> string -> Container
}.

Inductive value : Type :=
| VNone
| VStr (s : string)
| VFailure (e : Py.exn).

Definition is_Failure (v : value) : bool :=
  match v with
  | VFailure _ => true
  | _ => false
  end.

(** [DeferredList._cbDeferred] of the list [dl], for the slot [index]. *)
Inductive callback : Type :=
| cbDeferred (dl : nat) (index : nat).

Record Deferred : Type := {
  callbacks : list callback;
  called : bool;
  result : value
}.

(** The closure [processRobotSpecs] of [createContainer]. *)
Inductive list_callback : Type :=
| processRobotSpecs_cb.

Record DeferredList : Type := {
  resultList : list (option (bool * value));
  finishedCount : nat;
  list_called : bool;
  list_callbacks : list list_callback
}.

Record state : Type := {
  (* the object *)
  _containers : gmap string Container;
  _pendingCommIDReq : list nat;
  (* what it acts on *)
  deferreds : list Deferred;
  deferredLists : list DeferredList;
  db_requests : list (string * nat);
  sent : list Comm.Message;
  log : list string;
  fs : OS.filesystem;
  calls : list container_call
}.

Definition set_containers (f : gmap string Container -> gmap string Container) (s : state) : state :=
  {| _containers := f (_containers s);
     _pendingCommIDReq := _pendingCommIDReq s; deferreds := deferreds s;
     deferredLists := deferredLists s; db_requests := db_requests s;
     sent := sent s; log := log s; fs := fs s; calls := calls s |}.

Definition set_pendingCommIDReq (f : list nat -> list nat) (s : state) : state :=
  {| _containers := _containers s;
     _pendingCommIDReq := f (_pendingCommIDReq s);
     deferreds := deferreds s; deferredLists := deferredLists s;
     db_requests := db_requests s; sent := sent s; log := log s;
     fs := fs s; calls := calls s |}.

Definition set_deferreds (f : list Deferred -> list Deferred) (s : state) : state :=
  {| _containers := _containers s;
     _pendingCommIDReq := _pendingCommIDReq s;
     deferreds := f (deferreds s); deferredLists := deferredLists s;
     db_requests := db_requests s; sent := sent s; log := log s;
     fs := fs s; calls := calls s |}.

Definition set_deferredLists (f : list DeferredList -> list DeferredList) (s : state) : state :=
  {| _containers := _containers s;
     _pendingCommIDReq := _pendingCommIDReq s; deferreds := deferreds s;
     deferredLists := f (deferredLists s); db_requests := db_requests s;
     sent := sent s; log := log s; fs := fs s; calls := calls s |}.

Definition set_db_requests (f : list (string * nat) -> list (string * nat)) (s : state) : state :=
  {| _containers := _containers s;
     _pendingCommIDReq := _pendingCommIDReq s; deferreds := deferreds s;
     deferredLists := deferredLists s; db_requests := f (db_requests s);
     sent := sent s; log := log s; fs := fs s; calls := calls s |}.

Definition set_sent (f : list Comm.Message -> list Comm.Message) (s : state) : state :=
  {| _containers := _containers s;
     _pendingCommIDReq := _pendingCommIDReq s; deferreds := deferreds s;
     deferredLists := deferredLists s; db_requests := db_requests s;
     sent := f (sent s); log := log s; fs := fs s; calls := calls s |}.

Definition set_log (f : list string -> list string) (s : state) : state :=
  {| _containers := _containers s;
     _pendingCommIDReq := _pendingCommIDReq s; deferreds := deferreds s;
     deferredLists := deferredLists s; db_requests := db_requests s;
     sent := sent s; log := f (log s); fs := fs s; calls := calls s |}.

Definition set_calls (f : list container_call -> list container_call) (s : state) : state :=
  {| _containers := _containers s;
     _pendingCommIDReq := _pendingCommIDReq s; deferreds := deferreds s;
     deferredLists := deferredLists s; db_requests := db_requests s;
     sent := sent s; log := log s; fs := fs s; calls := f (calls s) |}.

Definition log_msg (m : string) : Py.M state unit :=
  Py.modify (set_log (fun l => l ++ [m])).

Definition record_call (c : container_call) : Py.M state unit :=
  Py.modify (set_calls (fun l => l ++ [c])).

(** [self._commMngr.sendMessage(msg)] *)
Definition sendMessage (msg : Comm.Message) : Py.M state unit :=
  Py.modify (set_sent (fun l => l ++ [msg])).

(** [Deferred()] *)
Definition Deferred_new : Py.M state nat :=
  fun s =>
    Py.Ok (length (deferreds s))
          (set_deferreds
             (fun l => l ++ [{| callbacks := []; called := false; result := VNone |}])
             s).

Section Manager.

Context `{Imports}.

(** *** Container *)

(** An instance of [Container] is true in a condition (the spec gives
    the class no length and no truth value of its own), so that
    [not container] holds exactly when [get] returned [None]. *)
Definition _getContainer (robotID containerID : string)
  : Py.M state Container :=
  self <- Py.get ;;
  match _containers self !! containerID with
  | None =>
      Py.raise (Py.InvalidRequest "ContainerID does not match any container.")
  | Some container =>
      if negb (Container_checkOwner container robotID)
      then Py.raise (Py.InvalidRequest "Robot is not the owner of the container.")
      else Py.ret container
  end.

(** [results[i]], ready for [results[i][0]] and [results[i][1]]. *)
Definition item (results : list (option (bool * value))) (i : nat)
  : Py.M state (bool * value) :=
  match results !! i with
  | Some (Some r) => Py.ret r
  | Some None =>
      Py.raise (Py.TypeError "'NoneType' object has no attribute '__getitem__'")
  | None => Py.raise (Py.IndexError "list index out of range")
  end.

(** The closure [processRobotSpecs] of [createContainer]; [results] is
    the result list of the [DeferredList]: one [(success, result)] per
    lookup. *)
Definition processRobotSpecs (results : list (option (bool * value)))
  : Py.M state unit :=
  r0 <- item results 0 ;;
  if negb r0.1
  then log_msg "Could not get necessary data to start a new container."
  else
    r1 <- item results 1 ;;
    if negb r1.1
    then log_msg "Could not get necessary data to start a new container."
    else
      match r0.2, r1.2 with
      | VStr homeFolder, VStr commID =>
          self <- Py.get ;;
          if negb (validateAddress commID)
          then log_msg "The CommID is not a valid address."
          else if bool_decide (is_Some (_containers self !! commID))
          then log_msg "There is already a container with the same CommID."
          else if negb (OS.isdir (fs self) homeFolder)
          then log_msg "The home folder is not a valid directory."
          else
            let container := Container_init commID homeFolder in
            record_call (Call_start commID) ;;;
            Py.modify (set_containers <[commID := container]>)
      | _, _ => Py.raise (Py.TypeError "expected a string")
      end.

(** *** Deferreds *)

(** A callback of a [DeferredList] is called with the result list; what
    it raises stays inside the deferred. *)
Definition run_list_callback (results : list (option (bool * value)))
    (s : state) (cb : list_callback) : state :=
  match cb with
  | processRobotSpecs_cb => Py.state_of (processRobotSpecs results s)
  end.

(** [DeferredList.callback(self.resultList)] *)
Definition DeferredList_callback (dl : nat) (s : state) : state :=
  match deferredLists s !! dl with
  | None => s
  | Some L =>
      fold_left (run_list_callback (resultList L)) (list_callbacks L)
        (set_deferredLists
           <[dl := {| resultList := resultList L;
                      finishedCount := finishedCount L;
                      list_called := true; list_callbacks := [] |}]> s)
  end.

(** [DeferredList._cbDeferred(result, index, succeeded)]; it returns the
    result it was given. *)
Definition _cbDeferred (dl index : nat) (v : value) (s : state) : state :=
  match deferredLists s !! dl with
  | None => s
  | Some L =>
      let L1 := {| resultList :=
                     <[index := Some (negb (is_Failure v), v)]> (resultList L);
                   finishedCount := S (finishedCount L);
                   list_called := list_called L;
                   list_callbacks := list_callbacks L |} in
      let s1 := set_deferredLists <[dl := L1]> s in
      if (negb (list_called L1)
          && (finishedCount L1 =? length (resultList L1))%nat)%bool
      then DeferredList_callback dl s1
      else s1
  end.

Definition run_callback (v : value) (s : state) (cb : callback) : state :=
  match cb with
  | cbDeferred dl index => _cbDeferred dl index v s
  end.

(** [deferred.callback(v)], and [deferred.errback(f)] when [v] is a
    failure. *)
Definition Deferred_callback (d : nat) (v : value) : Py.M state unit :=
  fun s =>
    match deferreds s !! d with
    | None => Py.Ok tt s
    | Some D =>
        if called D then Py.Raise Py.AlreadyCalledError s
        else
          Py.Ok tt
            (fold_left (run_callback v) (callbacks D)
               (set_deferreds
                  <[d := {| callbacks := []; called := true; result := v |}]>
                  s))
    end.

(** [deferred.addCallbacks(cb, cb)]: runs at once on a fired deferred. *)
Definition Deferred_addCallbacks (d : nat) (cb : callback) : Py.M state unit :=
  fun s =>
    match deferreds s !! d with
    | None => Py.Ok tt s
    | Some D =>
        if called D then Py.Ok tt (run_callback (result D) s cb)
        else
          Py.Ok tt
            (set_deferreds
               <[d := {| callbacks := callbacks D ++ [cb];
                         called := false; result := result D |}]> s)
    end.

(** [DeferredList(ds)] *)
Definition DeferredList_new (ds : list nat) : Py.M state nat :=
  self <- Py.get ;;
  let dl := length (deferredLists self) in
  Py.modify (set_deferredLists (fun l =>
    l ++ [{| resultList := replicate (length ds) None; finishedCount := 0;
             list_called := false; list_callbacks := [] |}])) ;;;
  (if (length ds =? 0)%nat then Py.modify (DeferredList_callback dl)
   else Py.ret tt) ;;;
  Py.for_each (imap (fun index d => (index, d)) ds)
    (fun '(index, d) => Deferred_addCallbacks d (cbDeferred dl index)) ;;;
  Py.ret dl.

(** [deferredList.addCallback(cb)] *)
Definition DeferredList_addCallback (dl : nat) (cb : list_callback)
  : Py.M state unit :=
  fun s =>
    match deferredLists s !! dl with
    | None => Py.Ok tt s
    | Some L =>
        if list_called L
        then Py.Ok tt (run_list_callback (resultList L) s cb)
        else
          Py.Ok tt
            (set_deferredLists
               <[dl := {| resultList := resultList L;
                          finishedCount := finishedCount L;
                          list_called := false;
                          list_callbacks := list_callbacks L ++ [cb] |}]> s)
    end.

(** *** Management *)

Definition _getNewCommID : Py.M state nat :=
  deferred <- Deferred_new ;;
  Py.modify (set_pendingCommIDReq (fun l => l ++ [deferred])) ;;;
  sendMessage {| Comm.msgType := Comm.ID_REQUEST;
                 Comm.msgDest := Comm.MASTER_ADDR;
                 Comm.content := None |} ;;;
  Py.ret deferred.

Definition setNewCommID (commID : string) : Py.M state unit :=
  self <- Py.get ;;
  match Py.pop (_pendingCommIDReq self) with
  | None => Py.raise (Py.IndexError "pop from empty list")
  | Some (deferred, rest) =>
      Py.modify (set_pendingCommIDReq (fun _ => rest)) ;;;
      Deferred_callback deferred (VStr commID)
  end.

(** Modelled from the spec: [DBInterface.getRobotSpecs], absent from the
    sources, is an asynchronous lookup: it hands back a completion
    handle and the request goes to the database. *)
Definition _getRobotSpecs (robotID : string) : Py.M state nat :=
  deferred <- Deferred_new ;;
  Py.modify (set_db_requests (fun l => l ++ [(robotID, deferred)])) ;;;
  Py.ret deferred.

Definition createContainer (robotID : string) : Py.M state unit :=
  deferredRobot <- _getRobotSpecs robotID ;;
  deferredCommID <- _getNewCommID ;;
  deferredList <- DeferredList_new [deferredRobot; deferredCommID] ;;
  DeferredList_addCallback deferredList processRobotSpecs_cb.

Definition authenticateContainerConnection (commID : string)
  : Py.M state bool :=
  self <- Py.get ;;
  if negb (bool_decide (is_Some (_containers self !! commID)))
  then
    log_msg "Received a initialization request from an unexpected source." ;;;
    Py.ret false
  else Py.ret true.

Definition setConnectedFlagContainer (commID : string) (flag : bool)
  : Py.M state unit :=
  self <- Py.get ;;
  match _containers self !! commID with
  | None =>
      if flag
      then Py.raise (Py.InvalidRequest "CommID does not match any container.")
      else Py.ret tt
  | Some container =>
      Py.modify (set_containers
                   <[commID := Container_setConnectedFlag container flag]>)
  end.

Definition destroyContainer (robotID containerID : string) : Py.M state unit :=
  container <- _getContainer robotID containerID ;;
  record_call (Call_stop containerID true) ;;;
  Py.modify (set_containers (delete containerID)).

(** *** ROS *)

(** After the owner check the request goes to the metadata client and
    on to the container; both are outside the sources. *)
Definition addNode (robotID containerID nodeID config : string)
  : Py.M state unit :=
  container <- _getContainer robotID containerID ;;
  record_call (Call_addNode containerID nodeID config).

Definition sendROSMsgToContainer (robotID containerID interfaceName msg : string)
  : Py.M state unit :=
  container <- _getContainer robotID containerID ;;
  record_call (Call_send containerID msg interfaceName robotID).

Definition sendROSMsgToRobot (robotID containerID interfaceName msg : string)
  : Py.M state unit :=
  container <- _getContainer robotID containerID ;;
  record_call (Call_receive containerID msg interfaceName robotID).

Definition removeNode (robotID containerID nodeID : string) : Py.M state unit :=
  container <- _getContainer robotID containerID ;;
  record_call (Call_removeNode containerID nodeID).

(** *** Routing *)

(** [self._containers.keys()] *)
Definition getSatelliteRouting (self : state) : list string :=
  (map_to_list (_containers self)).*1.

Definition shutdown : Py.M state unit :=
  self <- Py.get ;;
  Py.for_each (map_to_list (_containers self))
    (fun '(commID, container) => record_call (Call_stop commID false)) ;;;
  Py.modify (set_containers (fun _ => ∅)).

(** *** The manager as a machine *)

(** What reaches the manager: the callbacks of the robot and environment
    factories, an [ID_RESPONSE] handed over by [GetCommIDProcessor], and
    the metadata client firing a completion handle it gave out. *)
Inductive request : Type :=
| CreateContainer (robotID : string)
| DestroyContainer (robotID containerID : string)
| AuthenticateContainerConnection (commID : string)
| SetConnectedFlagContainer (commID : string) (flag : bool)
| AddNode (robotID containerID nodeID config : string)
| RemoveNode (robotID containerID nodeID : string)
| SendROSMsgToContainer (robotID containerID interfaceName msg : string)
| SendROSMsgToRobot (robotID containerID interfaceName msg : string)
| SetNewCommID (commID : string)
| RobotSpecsArrived (deferred : nat) (v : value)
| Shutdown.

(** The metadata client fires only handles it gave out. *)
Definition robotSpecsArrived (deferred : nat) (v : value) : Py.M state unit :=
  self <- Py.get ;;
  if bool_decide (deferred ∈ (db_requests self).*2)
  then Deferred_callback deferred v
  else Py.ret tt.

(** The state after a request, whether it returned or raised. *)
Definition handle (s : state) (r : request) : state :=
  match r with
  | CreateContainer robotID => Py.state_of (createContainer robotID s)
  | DestroyContainer robotID containerID =>
      Py.state_of (destroyContainer robotID containerID s)
  | AuthenticateContainerConnection commID =>
      Py.state_of (authenticateContainerConnection commID s)
  | SetConnectedFlagContainer commID flag =>
      Py.state_of (setConnectedFlagContainer commID flag s)
  | AddNode robotID containerID nodeID config =>
      Py.state_of (addNode robotID containerID nodeID config s)
  | RemoveNode robotID containerID nodeID =>
      Py.state_of (removeNode robotID containerID nodeID s)
  | SendROSMsgToContainer robotID containerID interfaceName msg =>
      Py.state_of (sendROSMsgToContainer robotID containerID interfaceName msg s)
  | SendROSMsgToRobot robotID containerID interfaceName msg =>
      Py.state_of (sendROSMsgToRobot robotID containerID interfaceName msg s)
  | SetNewCommID commID => Py.state_of (setNewCommID commID s)
  | RobotSpecsArrived deferred v => Py.state_of (robotSpecsArrived deferred v s)
  | Shutdown => Py.state_of (shutdown s)
  end.

End Manager.

(** [SatelliteManager.__init__] on a host with the file system [host]. *)
Definition init (host : OS.filesystem) : state :=
  {| _containers := ∅; _pendingCommIDReq := [];
     deferreds := []; deferredLists := []; db_requests := [];
     sent := []; log := []; fs := host; calls := [] |}.

Definition reachable `{Imports} (s : state) : Prop :=
  exists host rs, s = fold_left handle rs (init host).

(** Which deferreds have fired. *)
Definition fired (s : state) : list bool := called <$> deferreds s.

(** What no callback of a deferred touches: the queue, the deferreds and
    the handles given out. Callbacks change lists of deferreds, containers,
    the log and the recorded calls. *)
Definition books (s : state) : list nat * list Deferred * list (string * nat) :=
  (_pendingCommIDReq s, deferreds s, db_requests s).

(** What the queue of pending requests is judged by. *)
Definition ledger (s : state) : list nat * list bool * list (string * nat) :=
  (_pendingCommIDReq s, fired s, db_requests s).

(** The pending requests are distinct deferreds that have not fired, and
    none of them is a handle of the metadata client. *)
Definition pending_ok (s : state) : Prop :=
  NoDup (_pendingCommIDReq s)
  /\ (forall d, d ∈ _pendingCommIDReq s -> fired s !! d = Some false)
  /\ (forall r d, (r, d) ∈ db_requests s ->
                  d < length (fired s) /\ d ∉ _pendingCommIDReq s).

(** The responses [commIDs] of the master arriving one after the other. *)
Definition answer_all `{Imports} (commIDs : list string) (s : state) : state :=
  fold_left (fun s commID => Py.state_of (setNewCommID commID s)) commIDs s.

(** The result a deferred has fired with, if it has. *)
Definition resolved (s : state) (d : nat) : option value :=
  match deferreds s !! d with
  | Some D => if called D then Some (result D) else None
  | None => None
  end.

(** A finished lookup, and its entry in the result list of the
    [DeferredList]. *)
Inductive lookup_result : Type :=
| Found (v : string)
| NotFound (e : Py.exn).

Definition entry (r : lookup_result) : option (bool * value) :=
  match r with
  | Found v => Some (true, VStr v)
  | NotFound e => Some (false, VFailure e)
  end.

(** The conditions under which [createContainer] goes on to build a
    container from the two lookups. *)
Definition admissible `{Imports} (s : state) (r0 r1 : lookup_result)
    (homeFolder commID : string) : Prop :=
  r0 = Found homeFolder /\ r1 = Found commID
  /\ validateAddress commID = true
  /\ _containers s !! commID = None
  /\ OS.isdir (fs s) homeFolder = true.

(** *** Examples *)

(** Addresses of eight characters; every new container belongs to
    [robot-A]. *)
Definition example_imports : Imports :=
  {| validateAddress := fun a => (String.length a =? 8)%nat;
     Container_init := fun commID homeFolder =>
       {| address := commID; ownerRobot := "robot-A"; homeDir := homeFolder;
          connected := false; nodes := [] |} |}.

Definition example_host : OS.filesystem :=
  {[ "/" := OS.Dir; "/home" := OS.Dir; "/home/ros" := OS.Dir;
     "/home/ros/A" := OS.Dir ]}.

(** The manager after [requests], starting on [example_host]. *)
Definition after (requests : list request) : state :=
  fold_left (@handle example_imports) requests (init example_host).

End SatelliteManager.

(** ** Further parts of the two managers *)

(** *** Names and trees on disk *)

Module Paths.








End Paths.

(** *** The states a start or stop request leaves behind *)

Module ContainerSetUp.

Import ContainerManager.



(** The manager after [_stopContainer(commID)] in the state [s] and the end
    of the process it spawned, with [reason]. *)
Definition stopped (commID : string) (exitCode : Z) (failure : bool) (s : state)
  : state :=
  let reason := VReason exitCode failure in
  let removed := OS.rmtree (OS.join (_confDir s) [commID]) (fs s) in
  {| _confDir := _confDir s; _rootfs := _rootfs s; _srcRoot := _srcRoot s;
     _commIDs := _commIDs s;
     fs := if failure then fs s
           else match removed with inr disk => disk | inl _ => fs s end;
     log := log s ++ (if (negb failure && negb (exitCode =? 0)%Z)%bool
                      then [LogObj reason] else []);
     deferreds := deferreds s
       ++ [{| callbacks := []; called := true;
              result := if failure then reason
                        else match removed with
                             | inr _ => VNone
                             | inl e => VFailure e
                             end |}];
     spawned := spawned s
       ++ [{| executable := "/usr/bin/lxc-stop"; argv := lxc_stop commID;
              protocol := length (deferreds s); ended := true |}];
     sent := sent s; shutting_down := shutting_down s |}.

End ContainerSetUp.

(** *** [ContainerManager.stopContainer] and the thread pool *)

Module ContainerPool.

Import ContainerManager.

(** The manager together with the calls of [_stopContainer] that
    [deferToThread] has handed to the thread pool and that have not run
    yet. *)
Record threaded : Type := {
  manager : state;
  pool : list string
}.

Definition lift {A} (m : Py.M state A) : Py.M threaded A :=
  fun t =>
    match m (manager t) with
    | Py.Ok a s => Py.Ok a {| manager := s; pool := pool t |}
    | Py.Raise e s => Py.Raise e {| manager := s; pool := pool t |}
    end.

(** [deferToThread(self._stopContainer, commID)] *)
Definition deferToThread__stopContainer (commID : string) : Py.M threaded unit :=
  Py.modify (fun t => {| manager := manager t; pool := pool t ++ [commID] |}).

(** [l.remove(x)]: without the first [x]; [None] stands for the
    [ValueError] when there is none. *)
Fixpoint remove (x : string) (l : list string) : option (list string) :=
  match l with
  | [] => None
  | y :: l' =>
      if String.eqb x y then Some l'
      else match remove x l' with
           | Some r => Some (y :: r)
           | None => None
           end
  end.

Definition stopContainer (commID : string) : Py.M threaded unit :=
  self <- Py.get ;;
  if negb (Py.contains commID (_commIDs (manager self))) then
    lift (log_msg (LogMsg "There is no container registered under this CommID."))
  else
    deferToThread__stopContainer commID ;;;
    self <- Py.get ;;
    match remove commID (_commIDs (manager self)) with
    | Some l => lift (Py.modify (set_commIDs (fun _ => l)))
    | None => Py.raise (Py.ValueError "list.remove(x): x not in list")
    end.

(** A thread of the pool runs the oldest call handed to it. *)
Definition run_thread (t : threaded) : threaded :=
  match pool t with
  | [] => t
  | commID :: rest =>
      {| manager := Py.state_of (_stopContainer commID (manager t)); pool := rest |}
  end.

(** What reaches the container manager: the two kinds of request, a
    thread of the pool taking up a call, and an event of the reactor. *)
Inductive request : Type :=
| StartContainer (commID homeDir : string)
| StopContainer (commID : string)
| ThreadRuns
| Reactor (ev : reactor_event).

(** The manager after one more of them; an exception goes to the caller
    and leaves the manager as it was when it was raised. *)
Definition handle (t : threaded) (r : request) : threaded :=
  match r with
  | StartContainer commID homeDir =>
      Py.state_of (lift (startContainer commID homeDir) t)
  | StopContainer commID => Py.state_of (stopContainer commID t)
  | ThreadRuns => run_thread t
  | Reactor (ProcessEnded pid exitCode failure) =>
      {| manager := processEnded pid (VReason exitCode failure) (manager t);
         pool := pool t |}
  end.

End ContainerPool.

(** *** [SatelliteManager.connectToSatellites] *)

Module SatelliteMesh.

(** A call of [reactor.connectTCP(ip, port, factory)], the factory having
    been built for [commID] and given its approved message types. *)
Record connection : Type := {
  factory_commID : string;
  approved : list Comm.MsgTypes;
  ip : string;
  port : nat
}.

Section Mesh.

(** [settings.PORT_SATELLITE_SATELLITE]; the [settings] module is not part
    of the sources. *)
Variable PORT_SATELLITE_SATELLITE : nat.

Definition _connectToSatellite (commID ip : string) (made : list connection)
  : list connection :=
  made ++ [{| factory_commID := commID;
              approved := [Comm.ROUTE_INFO; Comm.ROS_MSG];
              ip := ip;
              port := PORT_SATELLITE_SATELLITE |}].

(** The loop over [satellites], each a dictionary; the first component of
    the result is the key of the [KeyError] that ended it, if one did. *)
Fixpoint connectToSatellites (satellites : list (gmap string string))
    (made : list connection) : option string * list connection :=
  match satellites with
  | [] => (None, made)
  | satellite :: rest =>
      match satellite !! "commID" with
      | None => (Some "commID", made)
      | Some commID =>
          match satellite !! "ip" with
          | None => (Some "ip", made)
          | Some ip => connectToSatellites rest (_connectToSatellite commID ip made)
          end
      end
  end.

(** The connection asked for by a dictionary that has both keys. *)
Definition connection_of (satellite : gmap string string) : connection :=
  {| factory_commID := default EmptyString (satellite !! "commID");
     approved := [Comm.ROUTE_INFO; Comm.ROS_MSG];
     ip := default EmptyString (satellite !! "ip");
     port := PORT_SATELLITE_SATELLITE |}.

End Mesh.

Definition complete (satellite : gmap string string) : Prop :=
  is_Some (satellite !! "commID") /\ is_Some (satellite !! "ip").

End SatelliteMesh.

(** *** The steps the satellite manager is made of *)

Module SatelliteSteps.

Import SatelliteManager.

(** [follows R m]: the state after [m], returned or raised, is related by
    [R] to the state before. *)
Definition follows {S A} (R : relation S) (m : Py.M S A) : Prop :=
  forall s, R s (Py.state_of (m s)).

Definition ID_REQUEST_message : Comm.Message :=
  {| Comm.msgType := Comm.ID_REQUEST;
     Comm.msgDest := Comm.MASTER_ADDR;
     Comm.content := None |}.

Section Steps.

Context `{Imports}.

(** The single changes of state that occur in the methods of the manager
    and in the callbacks they set up. *)
Inductive atomic : state -> state -> Prop :=
| atomic_deferreds f s : atomic s (set_deferreds f s)
| atomic_deferredLists f s : atomic s (set_deferredLists f s)
| atomic_pending f s : atomic s (set_pendingCommIDReq f s)
| atomic_db f s : atomic s (set_db_requests f s)
| atomic_log m s : atomic s (set_log (fun l => l ++ [m]) s)
| atomic_request s :
    atomic s (set_sent (fun l => l ++ [ID_REQUEST_message]) s)
| atomic_call c s : atomic s (set_calls (fun l => l ++ [c]) s)
| atomic_insert commID homeFolder s :
    validateAddress commID = true ->
    _containers s !! commID = None ->
    OS.isdir (fs s) homeFolder = true ->
    atomic s (set_containers <[commID := Container_init commID homeFolder]>
                (set_calls (fun l => l ++ [Call_start commID]) s))
| atomic_flag commID c flag s :
    _containers s !! commID = Some c ->
    atomic s (set_containers <[commID := Container_setConnectedFlag c flag]> s)
| atomic_delete commID s : atomic s (set_containers (delete commID) s)
| atomic_clear s : atomic s (set_containers (fun _ => ∅) s).

Definition evolves : relation state := rtc atomic.

(** Every record is the one built for the address it is registered under
    and for a home folder that is a directory, up to its connected flag,
    and the address is valid. *)
Definition records_as_built (s : state) : Prop :=
  forall commID c,
    _containers s !! commID = Some c ->
    validateAddress commID = true
    /\ exists homeFolder,
         OS.isdir (fs s) homeFolder = true
         /\ c = Container_setConnectedFlag (Container_init commID homeFolder)
                                           (connected c).

End Steps.

(** Every registered container has been started. *)
Definition registered_started (s : state) : Prop :=
  forall commID, is_Some (_containers s !! commID) -> Call_start commID ∈ calls s.

End SatelliteSteps.

(** *** The states [createContainer] goes through *)

Module SatelliteJoin.

Import SatelliteManager SatelliteSteps.

(** A deferred that has not fired, with its callbacks, and one that has
    fired with [v]. *)
Definition fresh_Deferred (cbs : list callback) : Deferred :=
  {| callbacks := cbs; called := false; result := VNone |}.

(** The manager right after [createContainer(robotID)] in the state [s]:
    two new deferreds, the first for the home folder and the second for
    the address, a list over them that waits for both, one more pending
    request and one more message. *)
Definition created (robotID : string) (s : state) : state :=
  let d := length (deferreds s) in
  let dl := length (deferredLists s) in
  {| _containers := _containers s;
     _pendingCommIDReq := _pendingCommIDReq s ++ [S d];
     deferreds := deferreds s ++ [fresh_Deferred [cbDeferred dl 0];
                                  fresh_Deferred [cbDeferred dl 1]];
     deferredLists := deferredLists s
       ++ [{| resultList := [None; None]; finishedCount := 0;
              list_called := false; list_callbacks := [processRobotSpecs_cb] |}];
     db_requests := db_requests s ++ [(robotID, d)];
     sent := sent s ++ [ID_REQUEST_message];
     log := log s; fs := fs s; calls := calls s |}.

Definition fired_Deferred (v : value) : Deferred :=
  {| callbacks := []; called := true; result := v |}.

(** The result list once both lookups have finished. *)
Definition join_results (v : value) (commID : string)
  : list (option (bool * value)) :=
  [Some (negb (is_Failure v), v); Some (true, VStr commID)].

(** The manager at the moment both results are in, before the callback of
    the list runs. *)
Definition joined (robotID : string) (v : value) (commID : string) (s : state)
  : state :=
  let d := length (deferreds s) in
  {| _containers := _containers s;
     _pendingCommIDReq := _pendingCommIDReq s;
     deferreds := deferreds s ++ [fired_Deferred v; fired_Deferred (VStr commID)];
     deferredLists := deferredLists s
       ++ [{| resultList := join_results v commID; finishedCount := 2;
              list_called := true; list_callbacks := [] |}];
     db_requests := db_requests s ++ [(robotID, d)];
     sent := sent s ++ [ID_REQUEST_message];
     log := log s; fs := fs s; calls := calls s |}.

(** The manager after the home folder alone has arrived, and after the
    address alone has. *)
Definition after_specs (robotID : string) (v : value) (s : state) : state :=
  let d := length (deferreds s) in
  let dl := length (deferredLists s) in
  {| _containers := _containers s;
     _pendingCommIDReq := _pendingCommIDReq s ++ [S d];
     deferreds := deferreds s ++ [fired_Deferred v;
                                  fresh_Deferred [cbDeferred dl 1]];
     deferredLists := deferredLists s
       ++ [{| resultList := [Some (negb (is_Failure v), v); None];
              finishedCount := 1;
              list_called := false; list_callbacks := [processRobotSpecs_cb] |}];
     db_requests := db_requests s ++ [(robotID, d)];
     sent := sent s ++ [ID_REQUEST_message];
     log := log s; fs := fs s; calls := calls s |}.

Definition after_commID (robotID commID : string) (s : state) : state :=
  let d := length (deferreds s) in
  let dl := length (deferredLists s) in
  {| _containers := _containers s;
     _pendingCommIDReq := _pendingCommIDReq s;
     deferreds := deferreds s ++ [fresh_Deferred [cbDeferred dl 0];
                                  fired_Deferred (VStr commID)];
     deferredLists := deferredLists s
       ++ [{| resultList := [None; Some (true, VStr commID)];
              finishedCount := 1;
              list_called := false; list_callbacks := [processRobotSpecs_cb] |}];
     db_requests := db_requests s ++ [(robotID, d)];
     sent := sent s ++ [ID_REQUEST_message];
     log := log s; fs := fs s; calls := calls s |}.

End SatelliteJoin.

(** * Operations in general *)

Section Operations.

Context {S : Type}.

Lemma returns_ret {A} (a : A) : Py.returns (@Py.ret S A a).
Proof. intros s. exact I. Qed.

Lemma returns_get : Py.returns (@Py.get S).
Proof. intros s. exact I. Qed.

Lemma returns_modify (f : S -> S) : Py.returns (Py.modify f).
Proof. intros s. exact I. Qed.

Lemma returns_bind {A B} (m : Py.M S A) (k : A -> Py.M S B) :
  Py.returns m -> (forall a, Py.returns (k a)) -> Py.returns (Py.bind m k).
Proof.
  intros Hm Hk s. unfold Py.bind.
  specialize (Hm s). destruct (m s) as [a s'|e s']; [apply Hk | exact Hm].
Qed.

Lemma returns_for_each {A} (l : list A) (body : A -> Py.M S unit) :
  (forall x, Py.returns (body x)) -> Py.returns (Py.for_each l body).
Proof.
  intros Hb. induction l as [|x l IH]; simpl.
  - apply returns_ret.
  - apply returns_bind; [apply Hb | intros _; exact IH].
Qed.

Lemma returns_map_each {A B} (l : list A) (body : A -> Py.M S B) :
  (forall x, Py.returns (body x)) -> Py.returns (Py.map_each l body).
Proof.
  intros Hb. induction l as [|x l IH]; simpl.
  - apply returns_ret.
  - apply returns_bind; [apply Hb | intros y].
    apply returns_bind; [exact IH | intros ys; apply returns_ret].
Qed.

Lemma state_of_bind {A B} (m : Py.M S A) (k : A -> Py.M S B) s a s1 :
  m s = Py.Ok a s1 -> Py.state_of (Py.bind m k s) = Py.state_of (k a s1).
Proof. intros E. unfold Py.bind. by rewrite E. Qed.

Context {P : Type} (proj : S -> P).

Lemma preserves_ret {A} (a : A) : Py.preserves proj (Py.ret a).
Proof. intros s. reflexivity. Qed.

Lemma preserves_raise {A} e : Py.preserves proj (@Py.raise S A e).
Proof. intros s. reflexivity. Qed.

Lemma preserves_get : Py.preserves proj (@Py.get S).
Proof. intros s. reflexivity. Qed.

Lemma preserves_modify (f : S -> S) :
  (forall s, proj (f s) = proj s) -> Py.preserves proj (Py.modify f).
Proof. intros Hf s. apply Hf. Qed.

Lemma preserves_bind {A C} (m : Py.M S A) (k : A -> Py.M S C) :
  Py.preserves proj m -> (forall a, Py.preserves proj (k a)) ->
  Py.preserves proj (Py.bind m k).
Proof.
  intros Hm Hk s. unfold Py.bind.
  specialize (Hm s). destruct (m s) as [a s'|e s']; simpl in *.
  - rewrite Hk. exact Hm.
  - exact Hm.
Qed.

Lemma preserves_for_each {A} (l : list A) (body : A -> Py.M S unit) :
  (forall x, Py.preserves proj (body x)) -> Py.preserves proj (Py.for_each l body).
Proof.
  intros Hb. induction l as [|x l IH]; simpl.
  - apply preserves_ret.
  - apply preserves_bind; [apply Hb | intros _; exact IH].
Qed.

Lemma preserves_map_each {A C} (l : list A) (body : A -> Py.M S C) :
  (forall x, Py.preserves proj (body x)) -> Py.preserves proj (Py.map_each l body).
Proof.
  intros Hb. induction l as [|x l IH]; simpl.
  - apply preserves_ret.
  - apply preserves_bind; [apply Hb | intros y].
    apply preserves_bind; [exact IH | intros ys; apply preserves_ret].
Qed.

End Operations.

Lemma pop_snoc {A} (l : list A) (x : A) : Py.pop (l ++ [x]) = Some (x, l).
Proof.
  induction l as [|y l IH]; [reflexivity|].
  simpl. rewrite IH. by destruct l.
Qed.

Lemma pop_Some {A} (l : list A) x r : Py.pop l = Some (x, r) -> l = r ++ [x].
Proof.
  revert x r. induction l as [|y l IH]; intros x r; [done|].
  simpl. destruct l as [|z l].
  - by intros [= <- <-].
  - destruct (Py.pop (z :: l)) as [[x' r']|] eqn:E; [|done].
    intros [= <- <-]. by rewrite (IH _ _ eq_refl).
Qed.

(** * Properties of the container manager *)

Section ContainerManagerFacts.

Import ContainerManager.

(** ** Operations that never raise *)

Lemma returns_Deferred_addCallback d cb : Py.returns (Deferred_addCallback d cb).
Proof.
  intros s. unfold Deferred_addCallback.
  destruct (deferreds s !! d) as [D|]; [|exact I].
  destruct (called D); [|exact I].
  destruct (run_callback _ _). exact I.
Qed.

Lemma returns__stopContainer commID : Py.returns (_stopContainer commID).
Proof.
  unfold _stopContainer.
  apply returns_bind; [intros s; exact I | intros d].
  apply returns_bind; [apply returns_Deferred_addCallback | intros _].
  apply returns_bind; [apply returns_modify | intros _; apply returns_ret].
Qed.

Lemma returns_DeferredList_new ds : Py.returns (DeferredList_new ds).
Proof.
  unfold DeferredList_new, on_frame.
  apply returns_bind; [apply returns_modify | intros _].
  apply returns_for_each. intros [index d]. apply returns_Deferred_addCallback.
Qed.

Lemma returns_shutdown_enter : Py.returns shutdown_enter.
Proof.
  unfold shutdown_enter, Event_new, on_frame.
  apply returns_bind; [apply returns_modify | intros _].
  apply returns_bind; [apply returns_get | intros self].
  apply returns_bind; [apply returns_map_each, returns__stopContainer | intros ds].
  apply returns_bind; [apply returns_DeferredList_new | intros _].
  apply returns_modify.
Qed.

(** ** The event of [shutdown] inside its frame *)

(** [event.set] is only ever reached as a callback, that is with the
    result of the deferred as its argument, and then it raises. *)
Lemma Event_set_with_argument v fr :
  Event_set [v] fr = inl (Py.TypeError "set() takes exactly 1 argument (2 given)").
Proof. reflexivity. Qed.

Lemma run_list_callback_event acc cb :
  event (run_list_callback acc cb).2 = event acc.2.
Proof.
  destruct acc as [v fr], cb. unfold run_list_callback.
  destruct (is_Failure v); [reflexivity|].
  rewrite Event_set_with_argument. reflexivity.
Qed.

Lemma fold_run_list_callback_event cbs acc :
  event (fold_left run_list_callback cbs acc).2 = event acc.2.
Proof.
  revert acc. induction cbs as [|cb cbs IH]; intros acc; simpl; [done|].
  rewrite IH. apply run_list_callback_event.
Qed.

Lemma run_list_callbacks_event fr :
  event (run_list_callbacks fr) = event fr.
Proof.
  unfold run_list_callbacks.
  pose proof (fold_run_list_callback_event (list_callbacks fr) (list_result fr, fr)) as E.
  destruct (fold_left _ _ _) as [v fr']. exact E.
Qed.

Lemma DeferredList_callback_event v fr :
  event (DeferredList_callback v fr) = event fr.
Proof. unfold DeferredList_callback. by rewrite run_list_callbacks_event. Qed.

Lemma DeferredList_addCallback_event cb fr :
  event (DeferredList_addCallback cb fr) = event fr.
Proof.
  unfold DeferredList_addCallback. simpl.
  destruct (list_called fr); [by rewrite run_list_callbacks_event | done].
Qed.

Lemma _cbDeferred_event index v fr :
  event (_cbDeferred index v fr) = event fr.
Proof.
  unfold _cbDeferred.
  match goal with |- context [if ?b then _ else _] => destruct b end;
    [by rewrite DeferredList_callback_event | done].
Qed.

Lemma DeferredList_init_event (ds : list nat) fr :
  event (let fr0 := {| event := event fr;
                       resultList := replicate (length ds) None;
                       finishedCount := 0; list_called := false;
                       list_result := VNone; list_callbacks := [] |} in
         if (length ds =? 0)%nat
         then DeferredList_callback (VResultList (resultList fr0)) fr0
         else fr0) = event fr.
Proof.
  simpl. destruct (length ds =? 0)%nat;
    [by rewrite DeferredList_callback_event | done].
Qed.

(** ** Parts of the state an operation leaves alone *)

Section Preservation.

Context {B : Type} (proj : state -> B) (Hproj : stable proj).

Lemma preserves_log_msg e : Py.preserves proj (log_msg e).
Proof. intros s. apply (stable_log _ Hproj). Qed.

Lemma preserves_on_fs op : Py.preserves proj (on_fs op).
Proof.
  intros s. unfold on_fs.
  destruct (op (fs s)); [reflexivity | apply (stable_fs _ Hproj)].
Qed.

Lemma preserves_Deferred_new : Py.preserves proj Deferred_new.
Proof. intros s. apply (stable_deferreds _ Hproj). Qed.

Lemma preserves_on_frame (f : frame -> frame) :
  (forall fr, event (f fr) = event fr) -> Py.preserves proj (on_frame f).
Proof. intros Hf s. by apply (stable_frame _ Hproj). Qed.

Lemma catch_state (m : Py.M state value) s :
  (catch (m s)).2 = Py.state_of (m s).
Proof. unfold catch. by destruct (m s). Qed.

Lemma preserves_start_callback_body v : Py.preserves proj (start_callback_body v).
Proof.
  destruct v; try apply preserves_raise. simpl.
  apply preserves_bind; [|intros; apply preserves_ret].
  destruct (negb _); [apply preserves_log_msg | apply preserves_ret].
Qed.

Lemma preserves_stop_callback_body commID v :
  Py.preserves proj (stop_callback_body commID v).
Proof.
  destruct v; try apply preserves_raise. simpl.
  apply preserves_bind.
  { destruct (negb _); [apply preserves_log_msg | apply preserves_ret]. }
  intros _. apply preserves_bind; [apply preserves_get | intros self].
  apply preserves_bind; [apply preserves_on_fs | intros; apply preserves_ret].
Qed.

Lemma run_callback_proj acc cb : proj (run_callback acc cb).2 = proj acc.2.
Proof.
  destruct acc as [v s]. destruct cb as [|commID|index]; simpl.
  - destruct (is_Failure v); [done|].
    rewrite catch_state. apply preserves_start_callback_body.
  - destruct (is_Failure v); [done|].
    rewrite catch_state. apply preserves_stop_callback_body.
  - apply (stable_frame _ Hproj). intros fr. apply _cbDeferred_event.
Qed.

Lemma fold_run_callback_proj cbs acc :
  proj (fold_left run_callback cbs acc).2 = proj acc.2.
Proof.
  revert acc. induction cbs as [|cb cbs IH]; intros acc; simpl; [done|].
  rewrite IH. apply run_callback_proj.
Qed.

Lemma preserves_Deferred_addCallback d cb :
  Py.preserves proj (Deferred_addCallback d cb).
Proof.
  intros s. unfold Deferred_addCallback.
  destruct (deferreds s !! d) as [D|]; [|done].
  destruct (called D); [|apply (stable_deferreds _ Hproj)].
  pose proof (run_callback_proj (result D, s) cb) as E.
  destruct (run_callback _ _) as [v s']. simpl in *.
  by rewrite (stable_deferreds _ Hproj).
Qed.

Lemma Deferred_callback_proj d v s : proj (Deferred_callback d v s) = proj s.
Proof.
  unfold Deferred_callback.
  destruct (deferreds s !! d) as [D|]; [|done].
  destruct (called D); [done|].
  pose proof (fold_run_callback_proj (callbacks D) (v, s)) as E.
  destruct (fold_left _ _ _) as [v' s']. simpl in *.
  by rewrite (stable_deferreds _ Hproj).
Qed.

Lemma preserves_DeferredList_new ds : Py.preserves proj (DeferredList_new ds).
Proof.
  unfold DeferredList_new. apply preserves_bind.
  - apply preserves_on_frame. intros fr. apply DeferredList_init_event.
  - intros _. apply preserves_for_each. intros [index d].
    apply preserves_Deferred_addCallback.
Qed.

Lemma preserves__createConfigFile commID :
  Py.preserves proj (_createConfigFile commID).
Proof.
  apply preserves_bind; [apply preserves_get | intros self; apply preserves_on_fs].
Qed.

Lemma preserves__createFstabFile commID homeDir :
  Py.preserves proj (_createFstabFile commID homeDir).
Proof.
  unfold _createFstabFile. destruct (negb _); [apply preserves_raise|].
  apply preserves_bind; [apply preserves_get | intros self; apply preserves_on_fs].
Qed.

Lemma preserves__createUpstartScript commID :
  Py.preserves proj (_createUpstartScript commID).
Proof.
  apply preserves_bind; [apply preserves_get | intros self; apply preserves_on_fs].
Qed.

Lemma preserves__startContainer commID homeDir :
  Py.preserves proj (_startContainer commID homeDir).
Proof.
  unfold _startContainer.
  apply preserves_bind; [apply preserves_get | intros self].
  destruct (OS.isdir _ _); [apply preserves_log_msg|].
  apply preserves_bind; [apply preserves_on_fs | intros _].
  apply preserves_bind; [apply preserves_log_msg | intros _].
  apply preserves_bind; [apply preserves__createConfigFile | intros _].
  apply preserves_bind; [apply preserves__createFstabFile | intros _].
  apply preserves_bind; [apply preserves__createUpstartScript | intros _].
  apply preserves_bind; [apply preserves_Deferred_new | intros d].
  apply preserves_bind; [apply preserves_Deferred_addCallback | intros _].
  apply preserves_bind; [apply preserves_log_msg | intros _].
  apply preserves_ret.
Qed.

Lemma preserves_startContainer commID homeDir :
  Py.preserves proj (startContainer commID homeDir).
Proof.
  unfold startContainer.
  apply preserves_bind; [apply preserves_get | intros self].
  destruct (Py.contains _ _); [apply preserves_log_msg|].
  apply preserves_bind; [|intros _; apply preserves__startContainer].
  intros s. apply (stable_commIDs _ Hproj).
Qed.

End Preservation.

Lemma stable_event_is_set : stable event_is_set.
Proof.
  split; try reflexivity.
  intros f s Hf. unfold event_is_set. simpl.
  destruct (shutting_down s) as [fr|]; simpl; [apply Hf | done].
Qed.

Lemma stable_spawned : stable spawned.
Proof. split; reflexivity. Qed.

Lemma stable_sent : stable sent.
Proof. split; reflexivity. Qed.

Lemma processEnded_event pid reason s :
  event_is_set (processEnded pid reason s) = event_is_set s.
Proof.
  unfold processEnded.
  destruct (spawned s !! pid) as [p|]; [|done].
  destruct (ended p); [done|].
  by rewrite (Deferred_callback_proj _ stable_event_is_set).
Qed.

Lemma preserves_event__stopContainer commID :
  Py.preserves event_is_set (_stopContainer commID).
Proof.
  unfold _stopContainer.
  apply preserves_bind;
    [apply preserves_Deferred_new, stable_event_is_set | intros d].
  apply preserves_bind;
    [apply preserves_Deferred_addCallback, stable_event_is_set | intros _].
  apply preserves_bind; [intros s; reflexivity | intros _; apply preserves_ret].
Qed.

(** [shutdown] reaches [event.wait()] with the event unset. *)
Lemma shutdown_enter_unset s :
  exists s', shutdown_enter s = Py.Ok tt s' /\ event_is_set s' = false.
Proof.
  set (rest := self <- Py.get ;;
               deferreds <- Py.map_each (_commIDs self) _stopContainer ;;
               DeferredList_new deferreds ;;;
               on_frame (DeferredList_addCallback event_set)).
  assert (K : Py.preserves event_is_set rest).
  { apply preserves_bind; [apply preserves_get | intros self].
    apply preserves_bind;
      [apply preserves_map_each, preserves_event__stopContainer | intros ds].
    apply preserves_bind;
      [apply preserves_DeferredList_new, stable_event_is_set | intros _].
    apply preserves_on_frame;
      [apply stable_event_is_set | apply DeferredList_addCallback_event]. }
  pose proof (returns_shutdown_enter s) as R.
  set (s1 := Py.state_of (Event_new s)).
  assert (E : shutdown_enter s = rest s1) by reflexivity.
  rewrite E in *. specialize (K s1).
  destruct (rest s1) as [[] s'|e s']; simpl in *; [|done].
  exists s'. split; [done|]. rewrite K. reflexivity.
Qed.

Lemma deliver_waiting evs s :
  event_is_set s = false ->
  exists s', fold_left deliver evs (Waiting s) = Waiting s'
             /\ event_is_set s' = false.
Proof.
  revert s. induction evs as [|[pid exitCode failure] evs IH]; intros s Hs; simpl.
  - by exists s.
  - unfold Event_wait. rewrite processEnded_event, Hs.
    apply IH. by rewrite processEnded_event.
Qed.

(** Claim C9 (does not hold on the code): [ContainerManager.shutdown]
    never returns. It reaches [event.wait()] with the event unset, and
    whatever processes end afterwards, in whatever order and with
    whatever exit code, the event stays unset: the only call of
    [event.set] is as a callback, with an argument the method does not
    take. *)
Theorem shutdown_never_returns (s : state) (evs : list reactor_event) :
  exists s', fold_left deliver evs (shutdown s) = Waiting s'
             /\ event_is_set s' = false.
Proof.
  unfold shutdown.
  destruct (shutdown_enter_unset s) as (s1 & -> & E1).
  unfold Event_wait. rewrite E1.
  by apply deliver_waiting.
Qed.

Lemma returns_state {A} (m : Py.M state A) s :
  Py.returns m -> exists a, m s = Py.Ok a (Py.state_of (m s)).
Proof. intros Hm. specialize (Hm s). destruct (m s); [by eexists | done]. Qed.

Lemma _stopContainer_spawned commID s :
  argv <$> spawned (Py.state_of (_stopContainer commID s))
  = (argv <$> spawned s) ++ [lxc_stop commID].
Proof.
  unfold _stopContainer.
  erewrite state_of_bind by reflexivity.
  set (s1 := set_deferreds _ s). set (d := length (deferreds s)).
  destruct (returns_state (Deferred_addCallback d (stop_callback commID)) s1
              (returns_Deferred_addCallback _ _)) as [[] E].
  erewrite state_of_bind by exact E.
  pose proof (preserves_Deferred_addCallback spawned stable_spawned
                d (stop_callback commID) s1) as P.
  unfold Py.bind; simpl. rewrite P. unfold s1; simpl.
  by rewrite fmap_app.
Qed.

Lemma map_each__stopContainer_spawned commIDs s :
  argv <$> spawned (Py.state_of (Py.map_each commIDs _stopContainer s))
  = (argv <$> spawned s) ++ (lxc_stop <$> commIDs).
Proof.
  revert s. induction commIDs as [|c cs IH]; intros s; simpl.
  - by rewrite app_nil_r.
  - destruct (returns_state (_stopContainer c) s (returns__stopContainer c))
      as [d E].
    erewrite state_of_bind by exact E.
    set (s1 := Py.state_of (_stopContainer c s)).
    destruct (returns_state (Py.map_each cs _stopContainer) s1) as [ds E1].
    { apply returns_map_each, returns__stopContainer. }
    erewrite state_of_bind by exact E1. simpl.
    rewrite IH. unfold s1. rewrite _stopContainer_spawned.
    by rewrite <- app_assoc.
Qed.

(** [shutdown] does issue one stop command per registered address, in the
    order of registration, before it starts to wait. *)
Lemma shutdown_enter_spawns_stops s :
  argv <$> spawned (Py.state_of (shutdown_enter s))
  = (argv <$> spawned s) ++ (lxc_stop <$> _commIDs s).
Proof.
  unfold shutdown_enter.
  erewrite state_of_bind by reflexivity.
  erewrite state_of_bind by reflexivity.
  set (s1 := set_frame _ s).
  destruct (returns_state (Py.map_each (_commIDs s1) _stopContainer) s1) as [ds E].
  { apply returns_map_each, returns__stopContainer. }
  erewrite state_of_bind by exact E.
  assert (P : Py.preserves spawned
                (DeferredList_new ds ;;; on_frame (DeferredList_addCallback event_set))).
  { apply preserves_bind; [apply preserves_DeferredList_new, stable_spawned|].
    intros _. apply preserves_on_frame;
      [apply stable_spawned | apply DeferredList_addCallback_event]. }
  transitivity
    (argv <$> spawned (Py.state_of (Py.map_each (_commIDs s1) _stopContainer s1)));
    [f_equal; apply P|].
  by rewrite map_each__stopContainer_spawned.
Qed.

(** An instance: two registered containers with their directories. The
    call spawns the two stop commands and waits; nothing is deleted yet.
    After both processes have ended with exit code 0 the directories are
    gone (when the reason reaches the callback as a plain result) or still
    there (when it is a failure and the callback is skipped); either way
    the call is still waiting. *)
Example shutdown_two_containers :
  let s := host ["SATL0001"; "SATL0002"]
                ["/"; "/conf"; "/conf/SATL0001"; "/conf/SATL0002"] in
  (exists s1, shutdown s = Waiting s1
     /\ argv <$> spawned s1 = [lxc_stop "SATL0001"; lxc_stop "SATL0002"]
     /\ fs s1 = fs s)
  /\ (exists s2,
        fold_left deliver [ProcessEnded 1 0 false; ProcessEnded 0 0 false]
                  (shutdown s) = Waiting s2
        /\ OS.isdir (fs s2) "/conf/SATL0001" = false
        /\ OS.isdir (fs s2) "/conf/SATL0002" = false)
  /\ (exists s2,
        fold_left deliver [ProcessEnded 1 0 true; ProcessEnded 0 0 true]
                  (shutdown s) = Waiting s2
        /\ OS.isdir (fs s2) "/conf/SATL0001" = true
        /\ OS.isdir (fs s2) "/conf/SATL0002" = true).
Proof.
  repeat split; eexists; (split; [vm_compute; reflexivity|]);
    repeat split; vm_compute; reflexivity.
Qed.

(** ** Construction *)

(** The manager is built exactly when the three configured directories
    are absolute paths; it starts with no registered address. *)
Lemma init_absolute_paths CONF_DIR ROOTFS ROOT_DIR disk :
  (exists s, init CONF_DIR ROOTFS ROOT_DIR disk = inr s /\ _commIDs s = [])
  <-> OS.isabs CONF_DIR = true /\ OS.isabs ROOTFS = true
      /\ OS.isabs ROOT_DIR = true.
Proof.
  unfold init.
  destruct (OS.isabs CONF_DIR), (OS.isabs ROOTFS), (OS.isabs ROOT_DIR); simpl;
    (split; [intros (s & E & _) | intros (E1 & E2 & E3)]);
    try discriminate; [done | by eexists].
Qed.

(** ** Starting a container *)

(** No path through [_startContainer] spawns a process. *)
Lemma _startContainer_never_spawns commID homeDir :
  Py.preserves spawned (_startContainer commID homeDir).
Proof. apply preserves__startContainer, stable_spawned. Qed.

(** No path through [startContainer] sends a message. *)
Lemma startContainer_never_sends commID homeDir :
  Py.preserves sent (startContainer commID homeDir).
Proof. apply preserves_startContainer, stable_sent. Qed.

(** Claim C2 (does not hold on the code): on a host where [/conf] exists
    and [/conf/SATL0042] does not, starting the container [SATL0042]
    creates the directory and writes the three files, and then spawns
    nothing: the command line of [lxc-start] is built and dropped. *)
Theorem _startContainer_creates_files_spawns_nothing :
  let s := host [] ["/"; "/conf"] in
  exists s',
    _startContainer "SATL0042" "/home/ros/A" s = Py.Ok tt s'
    /\ fs s' !! "/conf/SATL0042" = Some OS.Dir
    /\ fs s' !! "/conf/SATL0042/config"
       = Some (OS.File (config_content s "SATL0042"))
    /\ fs s' !! "/conf/SATL0042/fstab"
       = Some (OS.File (fstab_content s "SATL0042" "/home/ros/A"))
    /\ fs s' !! "/conf/SATL0042/upstart" = Some (OS.File upstart_content)
    /\ log s' = [LogMsg "Create files..."; LogMsg "Start container..."]
    /\ spawned s' = [].
Proof.
  eexists. split; [vm_compute; reflexivity|].
  repeat split; vm_compute; reflexivity.
Qed.

(** Counterexample to claim C3 as stated: the directory of [SATL0099]
    exists; after the start request the address is registered and no
    message has been sent. *)
Lemma existing_directory_address_not_released :
  let s := host [] ["/"; "/conf"; "/conf/SATL0099"] in
  let s' := Py.state_of (startContainer "SATL0099" "/home/ros/A" s) in
  _commIDs s' = ["SATL0099"] /\ sent s' = []
  /\ ~ aborted_and_released "SATL0099" s s'.
Proof.
  intros s s'.
  assert (E : _commIDs s' = ["SATL0099"]) by (vm_compute; reflexivity).
  split; [exact E|]. split; [vm_compute; reflexivity|].
  intros (_ & Hn & _). apply Hn. rewrite E. apply list_elem_of_here.
Qed.

(** Claim C3, amended: a start request for an address whose directory
    exists returns normally after logging one message; the file system is
    as before, no deferred is created, no process is spawned and no message
    is sent. *)
Theorem startContainer_existing_directory (s : state) (commID homeDir : string) :
  OS.isdir (fs s) (OS.join (_confDir s) [commID]) = true ->
  exists s' m,
    startContainer commID homeDir s = Py.Ok tt s'
    /\ log s' = log s ++ [LogMsg m]
    /\ fs s' = fs s
    /\ deferreds s' = deferreds s
    /\ spawned s' = spawned s
    /\ sent s' = sent s.
Proof.
  intros Hdir. unfold startContainer, Py.bind, Py.get.
  destruct (Py.contains commID (_commIDs s)).
  - eexists _, _. split; [reflexivity|]. repeat split.
  - cbn [Py.modify]. unfold _startContainer, Py.bind, Py.get.
    cbn [fs set_commIDs _confDir]. rewrite Hdir.
    eexists _, _. split; [reflexivity|]. repeat split.
Qed.

(** The amended claim at work on the host of the counterexample. *)
Lemma startContainer_existing_directory_witness :
  let s := host [] ["/"; "/conf"; "/conf/SATL0099"] in
  OS.isdir (fs s) (OS.join (_confDir s) ["SATL0099"]) = true
  /\ exists s' m,
       startContainer "SATL0099" "/home/ros/A" s = Py.Ok tt s'
       /\ log s' = log s ++ [LogMsg m]
       /\ fs s' = fs s
       /\ deferreds s' = deferreds s
       /\ spawned s' = spawned s
       /\ sent s' = sent s.
Proof.
  intros s. split; [vm_compute; reflexivity|].
  apply (startContainer_existing_directory s "SATL0099" "/home/ros/A").
  vm_compute; reflexivity.
Defined.

(** ** The upstart script *)

(** The script written is the same text for every address. *)
Lemma _createUpstartScript_content s commID s' :
  _createUpstartScript commID s = Py.Ok tt s' ->
  fs s' !! OS.join (_confDir s) [commID; "upstart"]
  = Some (OS.File upstart_content).
Proof.
  unfold _createUpstartScript, Py.bind, Py.get, on_fs, OS.write_file.
  destruct (fs s !! _) as [[|c]|]; [done| | ];
    (destruct (OS.parent_ok _ _); [|done]);
    intros [= <-]; cbn [fs set_fs]; apply lookup_insert_eq.
Qed.

(** Claim C8 (does not hold on the code): the script written for
    [SATL0042] starts [Dummy.py] as user [ros] in [/home/ros] with the
    single argument [8090]; the address occurs nowhere in the file. *)
Theorem _createUpstartScript_passes_8090 :
  let s := host [] ["/"; "/conf"; "/conf/SATL0042"] in
  exists s',
    _createUpstartScript "SATL0042" s = Py.Ok tt s'
    /\ fs s' !! "/conf/SATL0042/upstart" = Some (OS.File upstart_content)
    /\ upstart_lines !! 17%nat
       = Some (Py.tab +:+ "start-stop-daemon -c ros:ros -d /home/ros --retry 5"
                 +:+ " --exec python --"
                 +:+ " /home/ros/lib/framework/Administration/src/Dummy.py 8090")
    /\ after_dashes upstart_command
       = ["/home/ros/lib/framework/Administration/src/Dummy.py"; "8090"]
    /\ String.index 0 "SATL0042" upstart_content = None.
Proof.
  eexists. split; [vm_compute; reflexivity|].
  repeat split; vm_compute; reflexivity.
Qed.

End ContainerManagerFacts.

(** * Properties of the satellite manager *)

Section SatelliteManagerFacts.

Import SatelliteManager.

(** ** Owner check *)

Lemma _getContainer_rejects (s : state) (robotID containerID : string) :
  (_containers s !! containerID = None
   \/ exists c, _containers s !! containerID = Some c /\ robotID <> ownerRobot c) ->
  exists msg,
    _getContainer robotID containerID s = Py.Raise (Py.InvalidRequest msg) s.
Proof.
  unfold _getContainer, Py.bind, Py.get. intros [Hnone | (c & Hc & Hne)].
  - rewrite Hnone. eexists. reflexivity.
  - rewrite Hc. unfold Container_checkOwner.
    apply String.eqb_neq in Hne. rewrite Hne. eexists. reflexivity.
Qed.

Lemma _getContainer_accepts (s : state) (robotID containerID : string) c :
  _containers s !! containerID = Some c -> robotID = ownerRobot c ->
  _getContainer robotID containerID s = Py.Ok c s.
Proof.
  unfold _getContainer, Py.bind, Py.get. intros -> ->.
  unfold Container_checkOwner. by rewrite String.eqb_refl.
Qed.

(** Claim C4: when the container is unknown or belongs to another robot,
    [destroyContainer], [addNode], [removeNode], [sendROSMsgToContainer] and
    [sendROSMsgToRobot] raise [InvalidRequest] and leave the whole state of
    the manager, the container map included, as it was. *)
Theorem owner_checked_operations_reject (s : state) (robotID containerID : string) :
  (_containers s !! containerID = None
   \/ exists c, _containers s !! containerID = Some c /\ robotID <> ownerRobot c) ->
  exists msg,
    destroyContainer robotID containerID s = Py.Raise (Py.InvalidRequest msg) s
    /\ (forall nodeID config,
          addNode robotID containerID nodeID config s
          = Py.Raise (Py.InvalidRequest msg) s)
    /\ (forall nodeID,
          removeNode robotID containerID nodeID s
          = Py.Raise (Py.InvalidRequest msg) s)
    /\ (forall interfaceName msg',
          sendROSMsgToContainer robotID containerID interfaceName msg' s
          = Py.Raise (Py.InvalidRequest msg) s)
    /\ (forall interfaceName msg',
          sendROSMsgToRobot robotID containerID interfaceName msg' s
          = Py.Raise (Py.InvalidRequest msg) s).
Proof.
  intros Hbad. destruct (_getContainer_rejects s robotID containerID Hbad) as [msg E].
  exists msg.
  unfold destroyContainer, addNode, removeNode, sendROSMsgToContainer,
    sendROSMsgToRobot, Py.bind.
  rewrite E. repeat split.
Qed.

(** Robot B asks to destroy the container of robot A. *)
Lemma owner_checked_operations_reject_witness :
  let s := after [CreateContainer "robot-A";
                  RobotSpecsArrived 0 (VStr "/home/ros/A");
                  SetNewCommID "SATL0042"] in
  (exists c, _containers s !! "SATL0042" = Some c /\ "robot-B" <> ownerRobot c)
  /\ exists msg,
       destroyContainer "robot-B" "SATL0042" s
       = Py.Raise (Py.InvalidRequest msg) s.
Proof.
  intros s. split.
  - eexists. split; [vm_compute; reflexivity | discriminate].
  - destruct (owner_checked_operations_reject s "robot-B" "SATL0042")
      as (msg & E & _).
    + right. eexists. split; [vm_compute; reflexivity | discriminate].
    + exists msg. exact E.
Defined.

(** ** The connected flag *)

(** Claim C6: with no record under the address, [setConnectedFlagContainer]
    raises [InvalidRequest] for flag true and returns with the state as it
    was for flag false; with a record, it returns and the record under the
    address has the flag, the rest of the record and the other records
    being as before. *)
Theorem setConnectedFlagContainer_cases (s : state) (commID : string) (flag : bool) :
  (_containers s !! commID = None -> flag = true ->
   exists msg,
     setConnectedFlagContainer commID flag s = Py.Raise (Py.InvalidRequest msg) s)
  /\ (_containers s !! commID = None -> flag = false ->
      setConnectedFlagContainer commID flag s = Py.Ok tt s)
  /\ (forall c, _containers s !! commID = Some c ->
      exists s' c',
        setConnectedFlagContainer commID flag s = Py.Ok tt s'
        /\ _containers s' !! commID = Some c'
        /\ connected c' = flag
        /\ address c' = address c /\ ownerRobot c' = ownerRobot c
        /\ homeDir c' = homeDir c /\ nodes c' = nodes c
        /\ (forall k, k <> commID -> _containers s' !! k = _containers s !! k)).
Proof.
  unfold setConnectedFlagContainer, Py.bind, Py.get. repeat split.
  - intros -> ->. eexists. reflexivity.
  - intros -> ->. reflexivity.
  - intros c ->. eexists _, _. split; [reflexivity|]. cbn [_containers set_containers].
    split; [apply lookup_insert_eq|]. repeat split.
    intros k Hk. by apply lookup_insert_ne.
Qed.

(** The three cases on a manager with one container. *)
Lemma setConnectedFlagContainer_cases_witness :
  let s := after [CreateContainer "robot-A";
                  RobotSpecsArrived 0 (VStr "/home/ros/A");
                  SetNewCommID "SATL0042"] in
  (exists msg,
     setConnectedFlagContainer "SATL0001" true s
     = Py.Raise (Py.InvalidRequest msg) s)
  /\ setConnectedFlagContainer "SATL0001" false s = Py.Ok tt s
  /\ exists s' c',
       setConnectedFlagContainer "SATL0042" true s = Py.Ok tt s'
       /\ _containers s' !! "SATL0042" = Some c' /\ connected c' = true.
Proof.
  intros s.
  destruct (setConnectedFlagContainer_cases s "SATL0001" true) as (H1 & _ & _).
  destruct (setConnectedFlagContainer_cases s "SATL0001" false) as (_ & H2 & _).
  destruct (setConnectedFlagContainer_cases s "SATL0042" true) as (_ & _ & H3).
  split; [apply H1; [vm_compute|]; reflexivity|].
  split; [apply H2; [vm_compute|]; reflexivity|].
  edestruct H3 as (s' & c' & E & L & C & _); [vm_compute; reflexivity|].
  exists s', c'. repeat split; assumption.
Defined.

(** ** Routing *)

Lemma elem_of_getSatelliteRouting (s : state) (a : string) :
  a ∈ getSatelliteRouting s <-> is_Some (_containers s !! a).
Proof.
  unfold getSatelliteRouting. rewrite list_elem_of_fmap. split.
  - intros ([k c] & -> & Hin). apply elem_of_map_to_list in Hin. by exists c.
  - intros [c Hc]. exists (a, c). split; [done|]. by apply elem_of_map_to_list.
Qed.

(** Claim C7: [getSatelliteRouting] lists every address a record is
    registered under, once, and nothing else; setting the connected flag of
    any record to any value leaves its members as they are. *)
Theorem getSatelliteRouting_exact (s : state) :
  NoDup (getSatelliteRouting s)
  /\ (forall a, a ∈ getSatelliteRouting s <-> is_Some (_containers s !! a))
  /\ (forall commID flag a,
        a ∈ getSatelliteRouting
              (Py.state_of (setConnectedFlagContainer commID flag s))
        <-> a ∈ getSatelliteRouting s).
Proof.
  split; [apply NoDup_fst_map_to_list|].
  split; [apply elem_of_getSatelliteRouting|].
  intros commID flag a. rewrite !elem_of_getSatelliteRouting.
  unfold setConnectedFlagContainer, Py.bind, Py.get.
  destruct (_containers s !! commID) as [c|] eqn:Hc.
  - cbn [Py.state_of Py.modify _containers set_containers].
    destruct (decide (a = commID)) as [->|Hne].
    + rewrite lookup_insert_eq, Hc. split; intros _; eauto.
    + by rewrite lookup_insert_ne.
  - by destruct flag.
Qed.

(** ** Creating a container *)

Section WithImports.

Context `{Imports}.

(** Claim C5: once both lookups of [createContainer] have finished,
    [processRobotSpecs] returns, and either both lookups succeeded, the
    address is valid and free and the home folder is a directory, and then
    the new container is started and inserted under its address, nothing
    being logged; or one of these conditions fails, and then one message
    is logged, no container is started and the map is as before. *)
Theorem processRobotSpecs_inserts_iff (s : state) (r0 r1 : lookup_result) :
  exists s',
    processRobotSpecs [entry r0; entry r1] s = Py.Ok tt s'
    /\ ((exists homeFolder commID,
           admissible s r0 r1 homeFolder commID
           /\ _containers s'
              = <[commID := Container_init commID homeFolder]> (_containers s)
           /\ calls s' = calls s ++ [Call_start commID]
           /\ log s' = log s)
        \/ ((~ exists homeFolder commID, admissible s r0 r1 homeFolder commID)
            /\ _containers s' = _containers s
            /\ calls s' = calls s
            /\ exists m, log s' = log s ++ [m])).
Proof.
  unfold processRobotSpecs, admissible.
  destruct r0 as [home|e0]; cbn.
  2: { eexists. split; [reflexivity|]. right. repeat split; [|by eexists].
       intros (? & ? & [=] & _). }
  destruct r1 as [commID|e1]; cbn.
  2: { eexists. split; [reflexivity|]. right. repeat split; [|by eexists].
       intros (? & ? & _ & [=] & _). }
  unfold Py.bind; cbn.
  destruct (validateAddress commID) eqn:Hv; cbn.
  2: { eexists. split; [reflexivity|]. right. repeat split; [|by eexists].
       intros (? & ? & _ & [= <-] & Hv' & _). congruence. }
  destruct (_containers s !! commID) as [c|] eqn:Hc.
  { rewrite bool_decide_eq_true_2 by eauto. cbn.
    eexists. split; [reflexivity|]. right. repeat split; [|by eexists].
    intros (? & ? & _ & [= <-] & _ & Hc' & _). congruence. }
  rewrite bool_decide_eq_false_2 by (intros [? ?]; congruence). cbn.
  destruct (OS.isdir (fs s) home) eqn:Hd; cbn.
  2: { eexists. split; [reflexivity|]. right. repeat split; [|by eexists].
       intros (? & ? & [= <-] & _ & _ & _ & Hd'). congruence. }
  eexists. split; [reflexivity|]. left. exists home, commID. repeat split; done.
Qed.

(** ** The queue of pending requests *)

Lemma preserves_books_log_msg m : Py.preserves books (log_msg m).
Proof. intros s. reflexivity. Qed.

Lemma preserves_books_record_call c : Py.preserves books (record_call c).
Proof. intros s. reflexivity. Qed.

Lemma preserves_books_item results i : Py.preserves books (item results i).
Proof. intros s. unfold item. by destruct (results !! i) as [[r|]|]. Qed.

Lemma preserves_books_processRobotSpecs results :
  Py.preserves books (processRobotSpecs results).
Proof.
  unfold processRobotSpecs.
  apply preserves_bind; [apply preserves_books_item | intros r0].
  destruct (negb r0.1); [apply preserves_books_log_msg|].
  apply preserves_bind; [apply preserves_books_item | intros r1].
  destruct (negb r1.1); [apply preserves_books_log_msg|].
  destruct r0.2 as [|home|]; try apply preserves_raise.
  destruct r1.2 as [|commID|]; try apply preserves_raise.
  apply preserves_bind; [apply preserves_get | intros self].
  destruct (negb _); [apply preserves_books_log_msg|].
  destruct (bool_decide _); [apply preserves_books_log_msg|].
  destruct (negb _); [apply preserves_books_log_msg|].
  apply preserves_bind; [apply preserves_books_record_call | intros _].
  apply preserves_modify. reflexivity.
Qed.

Lemma run_list_callback_books results s cb :
  books (run_list_callback results s cb) = books s.
Proof. destruct cb. apply preserves_books_processRobotSpecs. Qed.

Lemma fold_run_list_callback_books results cbs s :
  books (fold_left (run_list_callback results) cbs s) = books s.
Proof.
  revert s. induction cbs as [|cb cbs IH]; intros s; simpl; [done|].
  rewrite IH. apply run_list_callback_books.
Qed.

Lemma DeferredList_callback_books dl s :
  books (DeferredList_callback dl s) = books s.
Proof.
  unfold DeferredList_callback.
  destruct (deferredLists s !! dl) as [L|]; [|done].
  by rewrite fold_run_list_callback_books.
Qed.

Lemma _cbDeferred_books dl index v s :
  books (_cbDeferred dl index v s) = books s.
Proof.
  unfold _cbDeferred.
  destruct (deferredLists s !! dl) as [L|]; [|done].
  match goal with |- context [if ?b then _ else _] => destruct b end; [|done].
  by rewrite DeferredList_callback_books.
Qed.

Lemma run_callback_books v s cb : books (run_callback v s cb) = books s.
Proof. destruct cb. apply _cbDeferred_books. Qed.

Lemma fold_run_callback_books v cbs s :
  books (fold_left (run_callback v) cbs s) = books s.
Proof.
  revert s. induction cbs as [|cb cbs IH]; intros s; simpl; [done|].
  rewrite IH. apply run_callback_books.
Qed.

Lemma ledger_books s s' : books s' = books s -> ledger s' = ledger s.
Proof. unfold books, ledger, fired. by intros [= -> -> ->]. Qed.

Lemma preserves_ledger_of_books {A} (m : Py.M state A) :
  Py.preserves books m -> Py.preserves ledger m.
Proof. intros Hm s. apply ledger_books, Hm. Qed.

(** Adding a callback to a deferred does not fire it. *)
Lemma preserves_ledger_Deferred_addCallbacks d cb :
  Py.preserves ledger (Deferred_addCallbacks d cb).
Proof.
  intros s. unfold Deferred_addCallbacks.
  destruct (deferreds s !! d) as [D|] eqn:HD; [|done].
  destruct (called D) eqn:HC; simpl.
  - apply ledger_books, run_callback_books.
  - unfold ledger, fired. simpl. rewrite list_fmap_insert. simpl.
    rewrite list_insert_id; [done|].
    by rewrite list_lookup_fmap, HD; simpl; rewrite HC.
Qed.

Lemma preserves_ledger_DeferredList_new ds :
  Py.preserves ledger (DeferredList_new ds).
Proof.
  unfold DeferredList_new.
  apply preserves_bind; [apply preserves_get | intros self].
  apply preserves_bind; [by apply preserves_modify | intros _].
  apply preserves_bind.
  { destruct (_ =? _)%nat; [|apply preserves_ret].
    apply preserves_modify. intros s. apply ledger_books, DeferredList_callback_books. }
  intros _. apply preserves_bind; [|intros _; apply preserves_ret].
  apply preserves_for_each. intros [index d].
  apply preserves_ledger_Deferred_addCallbacks.
Qed.

Lemma preserves_ledger_DeferredList_addCallback dl cb :
  Py.preserves ledger (DeferredList_addCallback dl cb).
Proof.
  intros s. unfold DeferredList_addCallback.
  destruct (deferredLists s !! dl) as [L|]; [|done].
  destruct (list_called L); [|done].
  apply ledger_books, run_list_callback_books.
Qed.

Lemma preserves_ledger__getContainer robotID containerID :
  Py.preserves ledger (_getContainer robotID containerID).
Proof.
  intros s. unfold _getContainer, Py.bind, Py.get.
  destruct (_containers s !! containerID) as [c|]; [|done].
  by destruct (negb _).
Qed.

Lemma pending_ok_ledger s s' : ledger s' = ledger s -> pending_ok s -> pending_ok s'.
Proof.
  unfold ledger, pending_ok. intros [= E1 E2 E3]. by rewrite E1, E2, E3.
Qed.

Lemma fired_lookup_false s d :
  fired s !! d = Some false ->
  exists D, deferreds s !! d = Some D /\ called D = false.
Proof.
  unfold fired. rewrite list_lookup_fmap.
  destruct (deferreds s !! d) as [D|]; [|done].
  intros [= E]. by exists D.
Qed.

(** Firing a deferred that has not fired: it holds the value, and the
    queue, the other deferreds and the handles are as before. *)
Lemma Deferred_callback_fires d v s :
  fired s !! d = Some false ->
  exists s',
    Deferred_callback d v s = Py.Ok tt s'
    /\ books s'
       = (_pendingCommIDReq s,
          <[d := {| callbacks := []; called := true; result := v |}]> (deferreds s),
          db_requests s).
Proof.
  intros (D & HD & HC)%fired_lookup_false.
  unfold Deferred_callback. rewrite HD, HC.
  eexists. split; [reflexivity|].
  by rewrite fold_run_callback_books.
Qed.

Lemma resolved_insert s s' d v :
  fired s !! d = Some false ->
  deferreds s'
  = <[d := {| callbacks := []; called := true; result := v |}]> (deferreds s) ->
  resolved s' d = Some v
  /\ (forall d', d' <> d -> deferreds s' !! d' = deferreds s !! d').
Proof.
  intros (D & HD & HC)%fired_lookup_false E. split.
  - unfold resolved. rewrite E, list_lookup_insert_eq; [done|].
    by eapply lookup_lt_Some.
  - intros d' Hne. rewrite E. by apply list_lookup_insert_ne.
Qed.

Lemma Deferred_callback_pending_ok d v s :
  pending_ok s -> d ∉ _pendingCommIDReq s ->
  pending_ok (Py.state_of (Deferred_callback d v s)).
Proof.
  intros (Hnd & Hun & Hdb) Hd.
  destruct (decide (fired s !! d = Some false)) as [Hf|Hf].
  - destruct (Deferred_callback_fires d v s Hf) as (s' & -> & [= E1 E2 E3]).
    simpl. unfold pending_ok, fired. rewrite E1, E2, E3.
    rewrite list_fmap_insert. simpl. split; [done|]. split.
    + intros d' Hd'. rewrite list_lookup_insert_ne; [by apply Hun|].
      intros ->. done.
    + intros r d' Hr. rewrite length_insert. by apply Hdb in Hr.
  - unfold Deferred_callback.
    destruct (deferreds s !! d) as [D|] eqn:HD; [|done].
    destruct (called D) eqn:HC; [done|].
    exfalso. apply Hf. unfold fired. by rewrite list_lookup_fmap, HD; simpl; rewrite HC.
Qed.

Lemma setNewCommID_empty commID s :
  _pendingCommIDReq s = [] ->
  setNewCommID commID s = Py.Raise (Py.IndexError "pop from empty list") s.
Proof. unfold setNewCommID, Py.bind, Py.get. by intros ->. Qed.

Lemma setNewCommID_pops commID s rest d :
  pending_ok s -> _pendingCommIDReq s = rest ++ [d] ->
  exists s',
    setNewCommID commID s = Py.Ok tt s'
    /\ books s'
       = (rest,
          <[d := {| callbacks := []; called := true; result := VStr commID |}]>
            (deferreds s),
          db_requests s).
Proof.
  intros (Hnd & Hun & Hdb) Hp.
  unfold setNewCommID, Py.bind at 1, Py.get. rewrite Hp, pop_snoc.
  unfold Py.bind, Py.modify.
  set (s1 := set_pendingCommIDReq _ s).
  assert (Hf : fired s1 !! d = Some false).
  { apply (Hun d). rewrite Hp. apply elem_of_app. right. apply list_elem_of_here. }
  destruct (Deferred_callback_fires d (VStr commID) s1 Hf) as (s' & -> & E).
  by exists s'.
Qed.

Lemma setNewCommID_pending_ok commID s :
  pending_ok s -> pending_ok (Py.state_of (setNewCommID commID s)).
Proof.
  intros Hok.
  destruct (Py.pop (_pendingCommIDReq s)) as [[d rest]|] eqn:Hpop.
  - apply pop_Some in Hpop.
    destruct (setNewCommID_pops commID s rest d Hok Hpop) as (s' & -> & [= E1 E2 E3]).
    destruct Hok as (Hnd & Hun & Hdb). rewrite Hpop in Hnd, Hun, Hdb.
    apply NoDup_app in Hnd as (Hnd & Hdis & _).
    simpl. unfold pending_ok, fired. rewrite E1, E2, E3.
    rewrite list_fmap_insert. simpl. split; [done|]. split.
    + intros d' Hd'. rewrite list_lookup_insert_ne.
      * apply Hun, elem_of_app. by left.
      * intros ->. apply (Hdis d' Hd'), list_elem_of_here.
    + intros r d' Hr. rewrite length_insert. apply Hdb in Hr as [Hl Hn].
      split; [done|]. intros Hin. apply Hn, elem_of_app. by left.
  - unfold setNewCommID, Py.bind, Py.get. by rewrite Hpop.
Qed.

Lemma _getNewCommID_effect s :
  exists s',
    _getNewCommID s = Py.Ok (length (deferreds s)) s'
    /\ ledger s'
       = (_pendingCommIDReq s ++ [length (deferreds s)],
          fired s ++ [false], db_requests s)
    /\ sent s'
       = sent s ++ [{| Comm.msgType := Comm.ID_REQUEST;
                       Comm.msgDest := Comm.MASTER_ADDR;
                       Comm.content := None |}].
Proof.
  eexists. split; [reflexivity|]. split; [|reflexivity].
  unfold ledger, fired. simpl. by rewrite fmap_app.
Qed.

Lemma _getRobotSpecs_effect robotID s :
  exists s',
    _getRobotSpecs robotID s = Py.Ok (length (deferreds s)) s'
    /\ ledger s'
       = (_pendingCommIDReq s, fired s ++ [false],
          db_requests s ++ [(robotID, length (deferreds s))]).
Proof.
  eexists. split; [reflexivity|].
  unfold ledger, fired. simpl. by rewrite fmap_app.
Qed.

Lemma pending_ok_fresh_request s s' :
  pending_ok s ->
  ledger s'
  = (_pendingCommIDReq s ++ [length (fired s)], fired s ++ [false], db_requests s) ->
  pending_ok s'.
Proof.
  intros (Hnd & Hun & Hdb) [= E1 E2 E3]. unfold pending_ok.
  rewrite E1, E2, E3.
  assert (Hlt : forall d, d ∈ _pendingCommIDReq s -> d < length (fired s)).
  { intros d Hd. eapply lookup_lt_Some, Hun, Hd. }
  split; [|split].
  - apply NoDup_app. split; [done|]. split; [|apply NoDup_singleton].
    intros d Hd ->%list_elem_of_singleton. apply Hlt in Hd. lia.
  - intros d [Hd | ->%list_elem_of_singleton]%elem_of_app.
    + rewrite lookup_app_l; [by apply Hun | by apply Hlt].
    + by rewrite list_lookup_middle.
  - intros r d Hr. apply Hdb in Hr as [Hl Hn]. rewrite length_app. simpl.
    split; [lia|]. intros [Hd | ->%list_elem_of_singleton]%elem_of_app; [done|lia].
Qed.

Lemma pending_ok_fresh_handle s s' robotID :
  pending_ok s ->
  ledger s'
  = (_pendingCommIDReq s, fired s ++ [false],
     db_requests s ++ [(robotID, length (fired s))]) ->
  pending_ok s'.
Proof.
  intros (Hnd & Hun & Hdb) [= E1 E2 E3]. unfold pending_ok.
  rewrite E1, E2, E3.
  assert (Hlt : forall d, d ∈ _pendingCommIDReq s -> d < length (fired s)).
  { intros d Hd. eapply lookup_lt_Some, Hun, Hd. }
  split; [done|]. split.
  - intros d Hd. rewrite lookup_app_l; [by apply Hun | by apply Hlt].
  - intros r d [Hr | [= -> ->]%list_elem_of_singleton]%elem_of_app;
      rewrite length_app; simpl.
    + apply Hdb in Hr as [Hl Hn]. split; [lia | done].
    + split; [lia|]. intros Hd%Hlt. lia.
Qed.

Lemma fired_length s : length (fired s) = length (deferreds s).
Proof. unfold fired. apply length_fmap. Qed.

Lemma createContainer_pending_ok robotID s :
  pending_ok s -> pending_ok (Py.state_of (createContainer robotID s)).
Proof.
  intros Hok. unfold createContainer.
  destruct (_getRobotSpecs_effect robotID s) as (s1 & E1 & L1).
  rewrite (state_of_bind _ _ _ _ _ E1).
  assert (Hok1 : pending_ok s1).
  { eapply pending_ok_fresh_handle; [exact Hok|]. by rewrite fired_length. }
  destruct (_getNewCommID_effect s1) as (s2 & E2 & L2 & _).
  rewrite (state_of_bind _ _ _ _ _ E2).
  assert (Hok2 : pending_ok s2).
  { eapply pending_ok_fresh_request; [exact Hok1|]. by rewrite fired_length. }
  eapply pending_ok_ledger; [|exact Hok2].
  apply preserves_bind; [apply preserves_ledger_DeferredList_new | intros dl].
  apply preserves_ledger_DeferredList_addCallback.
Qed.

Lemma init_pending_ok host : pending_ok (init host).
Proof.
  split; [apply NoDup_nil_2|]. split.
  - intros d Hd. by apply elem_of_nil in Hd.
  - intros r d Hr. by apply elem_of_nil in Hr.
Qed.

Lemma handle_pending_ok s r : pending_ok s -> pending_ok (handle s r).
Proof.
  intros Hok. destruct r; simpl.
  - by apply createContainer_pending_ok.
  - eapply pending_ok_ledger; [|exact Hok]. unfold destroyContainer.
    apply preserves_bind; [apply preserves_ledger__getContainer | intros c].
    apply preserves_bind; [|intros _]; by apply preserves_modify.
  - eapply pending_ok_ledger; [|exact Hok].
    unfold authenticateContainerConnection, Py.bind, Py.get.
    by destruct (negb _).
  - eapply pending_ok_ledger; [|exact Hok].
    unfold setConnectedFlagContainer, Py.bind, Py.get.
    destruct (_containers s !! commID) as [c|]; [done|]. by destruct flag.
  - eapply pending_ok_ledger; [|exact Hok]. unfold addNode.
    apply preserves_bind; [apply preserves_ledger__getContainer | intros c].
    by apply preserves_modify.
  - eapply pending_ok_ledger; [|exact Hok]. unfold removeNode.
    apply preserves_bind; [apply preserves_ledger__getContainer | intros c].
    by apply preserves_modify.
  - eapply pending_ok_ledger; [|exact Hok]. unfold sendROSMsgToContainer.
    apply preserves_bind; [apply preserves_ledger__getContainer | intros c].
    by apply preserves_modify.
  - eapply pending_ok_ledger; [|exact Hok]. unfold sendROSMsgToRobot.
    apply preserves_bind; [apply preserves_ledger__getContainer | intros c].
    by apply preserves_modify.
  - by apply setNewCommID_pending_ok.
  - unfold robotSpecsArrived, Py.bind, Py.get.
    case_bool_decide as Hin; [|done].
    apply Deferred_callback_pending_ok; [done|].
    apply list_elem_of_fmap in Hin as ([r d] & -> & Hr).
    destruct Hok as (_ & _ & Hdb). by apply Hdb in Hr as [_ ?].
  - eapply pending_ok_ledger; [|exact Hok]. unfold shutdown.
    apply preserves_bind; [apply preserves_get | intros self].
    apply preserves_bind; [|intros _; by apply preserves_modify].
    apply preserves_for_each. intros [k c]. by apply preserves_modify.
Qed.

(** In every state the manager can reach, the pending requests are
    distinct deferreds that have not fired. *)
Lemma reachable_pending_ok s : reachable s -> pending_ok s.
Proof.
  intros (host & rs & ->).
  generalize (init_pending_ok host). generalize (init host).
  induction rs as [|r rs IH]; intros s Hs; simpl; [done|].
  apply IH. by apply handle_pending_ok.
Qed.

Lemma pending_unresolved s d :
  pending_ok s -> d ∈ _pendingCommIDReq s -> resolved s d = None.
Proof.
  intros (_ & Hun & _) Hd. apply Hun, fired_lookup_false in Hd as (D & HD & HC).
  unfold resolved. by rewrite HD, HC.
Qed.

(** Claim C10: in a state the manager can reach, [setNewCommID] on an empty
    queue raises [IndexError] and changes nothing; on a queue that is not
    empty it returns, the queue loses its last entry and nothing else, and
    the deferred of that entry, unfired before, has fired with the address;
    no other deferred changes. *)
Theorem setNewCommID_needs_pending (s : state) (commID : string) :
  reachable s ->
  (_pendingCommIDReq s = [] ->
   setNewCommID commID s = Py.Raise (Py.IndexError "pop from empty list") s)
  /\ (_pendingCommIDReq s <> [] ->
      exists rest d s',
        _pendingCommIDReq s = rest ++ [d]
        /\ setNewCommID commID s = Py.Ok tt s'
        /\ _pendingCommIDReq s' = rest
        /\ resolved s d = None
        /\ resolved s' d = Some (VStr commID)
        /\ (forall d', d' <> d -> deferreds s' !! d' = deferreds s !! d')).
Proof.
  intros Hok%reachable_pending_ok. split; [apply setNewCommID_empty|].
  intros Hne.
  destruct (Py.pop (_pendingCommIDReq s)) as [[d rest]|] eqn:Hpop.
  2: { destruct (_pendingCommIDReq s) as [|x l] eqn:E; [done|].
       pose proof (pop_snoc (removelast (x :: l)) (List.last (x :: l) x)) as Hs.
       rewrite <- app_removelast_last in Hs by done. congruence. }
  apply pop_Some in Hpop.
  destruct (setNewCommID_pops commID s rest d Hok Hpop) as (s' & E & [= E1 E2 E3]).
  assert (Hin : d ∈ _pendingCommIDReq s).
  { rewrite Hpop. apply elem_of_app. right. apply list_elem_of_here. }
  destruct (resolved_insert s s' d (VStr commID)) as [R F]; [|exact E2|].
  { destruct Hok as (_ & Hun & _). by apply Hun. }
  exists rest, d, s'. repeat split; try done.
  by apply pending_unresolved.
Qed.

(** ** The order of answers *)

Lemma setNewCommID_frame commID s d :
  pending_ok s -> d ∉ _pendingCommIDReq s ->
  let s' := Py.state_of (setNewCommID commID s) in
  (d ∉ _pendingCommIDReq s') /\ deferreds s' !! d = deferreds s !! d.
Proof.
  intros Hok Hd.
  destruct (Py.pop (_pendingCommIDReq s)) as [[d0 rest]|] eqn:Hpop.
  - apply pop_Some in Hpop.
    destruct (setNewCommID_pops commID s rest d0 Hok Hpop) as (s' & -> & [= E1 E2 E3]).
    simpl. rewrite E1, E2. rewrite Hpop in Hd. split.
    + intros Hin. apply Hd, elem_of_app. by left.
    + apply list_lookup_insert_ne. intros ->.
      apply Hd, elem_of_app. right. apply list_elem_of_here.
  - unfold setNewCommID, Py.bind, Py.get. by rewrite Hpop.
Qed.

Lemma answer_all_frame commIDs s d :
  pending_ok s -> d ∉ _pendingCommIDReq s ->
  deferreds (answer_all commIDs s) !! d = deferreds s !! d.
Proof.
  revert s. induction commIDs as [|c cs IH]; intros s Hok Hd; [done|].
  change (answer_all (c :: cs) s)
    with (answer_all cs (Py.state_of (setNewCommID c s))).
  destruct (setNewCommID_frame c s d Hok Hd) as [Hd' E].
  rewrite IH; [exact E | by apply setNewCommID_pending_ok | exact Hd'].
Qed.

(** What the code does in place of first in, first out: of the pending
    requests [ds], answered by as many responses, the newest is resolved
    with the first response and the oldest with the last. *)
Lemma answer_all_newest_first commIDs s keep ds :
  pending_ok s -> _pendingCommIDReq s = keep ++ ds ->
  length commIDs = length ds ->
  _pendingCommIDReq (answer_all commIDs s) = keep
  /\ resolved (answer_all commIDs s) <$> ds
     = (fun c => Some (VStr c)) <$> reverse commIDs.
Proof.
  revert s ds. induction commIDs as [|c cs IH]; intros s ds Hok Hp Hlen.
  { destruct ds; [|done]. by rewrite app_nil_r in Hp. }
  destruct ds as [|d ds' _] using rev_ind; [done|].
  rewrite length_app in Hlen. simpl in Hlen.
  rewrite app_assoc in Hp.
  destruct (setNewCommID_pops c s (keep ++ ds') d Hok Hp) as (s1 & E & [= E1 E2 E3]).
  assert (Hok1 : pending_ok s1).
  { pose proof (setNewCommID_pending_ok c s Hok) as H1. by rewrite E in H1. }
  assert (Hd : d ∈ _pendingCommIDReq s).
  { rewrite Hp. apply elem_of_app. right. apply list_elem_of_here. }
  destruct (resolved_insert s s1 d (VStr c)) as [R _]; [|exact E2|].
  { destruct Hok as (_ & Hun & _). by apply Hun. }
  assert (Hd1 : d ∉ _pendingCommIDReq s1).
  { rewrite E1. destruct Hok as (Hnd & _). rewrite Hp in Hnd.
    apply NoDup_app in Hnd as (_ & Hdis & _).
    intros Hin. apply (Hdis d Hin), list_elem_of_here. }
  change (answer_all (c :: cs) s)
    with (answer_all cs (Py.state_of (setNewCommID c s))).
  rewrite E. cbn [Py.state_of].
  destruct (IH s1 ds' Hok1 E1) as [IH1 IH2]; [lia|].
  split; [done|].
  rewrite fmap_app, IH2, reverse_cons, fmap_app. f_equal. simpl. f_equal.
  unfold resolved in *. by rewrite answer_all_frame.
Qed.

(** Claim C1 (does not hold on the code): three requests for a new address
    are issued in a row, on the deferreds 0, 1 and 2, and the responses
    [X1], [X2], [X3] arrive in this order. The first request is resolved
    with [X3] and the third with [X1]: [pop()] takes the newest pending
    request, not the oldest. *)
Theorem setNewCommID_resolves_newest_first :
  forall host,
  exists s1 s2 s3,
    _getNewCommID (init host) = Py.Ok 0 s1
    /\ _getNewCommID s1 = Py.Ok 1 s2
    /\ _getNewCommID s2 = Py.Ok 2 s3
    /\ _pendingCommIDReq s3 = [0; 1; 2]
    /\ resolved (answer_all ["X1"; "X2"; "X3"] s3) 0 = Some (VStr "X3")
    /\ resolved (answer_all ["X1"; "X2"; "X3"] s3) 1 = Some (VStr "X2")
    /\ resolved (answer_all ["X1"; "X2"; "X3"] s3) 2 = Some (VStr "X1").
Proof.
  intros host. eexists _, _, _.
  split; [reflexivity|]. split; [reflexivity|]. split; [reflexivity|].
  repeat split.
Qed.

End WithImports.

(** One request is pending; the response resolves it. *)
Lemma setNewCommID_needs_pending_witness :
  let s := after [CreateContainer "robot-A"] in
  @reachable example_imports s
  /\ _pendingCommIDReq s <> []
  /\ exists rest d s',
       _pendingCommIDReq s = rest ++ [d]
       /\ @setNewCommID example_imports "SATL0042" s = Py.Ok tt s'
       /\ _pendingCommIDReq s' = rest
       /\ resolved s' d = Some (VStr "SATL0042").
Proof.
  intros s.
  assert (R : @reachable example_imports s).
  { exists example_host, [CreateContainer "robot-A"]. reflexivity. }
  assert (N : _pendingCommIDReq s <> []) by (vm_compute; discriminate).
  split; [exact R|]. split; [exact N|].
  destruct (@setNewCommID_needs_pending example_imports s "SATL0042" R)
    as [_ Hpop].
  destruct (Hpop N) as (rest & d & s' & E1 & E2 & E3 & _ & E4 & _).
  exists rest, d, s'. repeat split; assumption.
Defined.

(** ** Shutdown of the satellite manager *)

Lemma for_each_record_stop (l : list (string * Container)) s :
  exists s',
    Py.for_each l (fun '(commID, container) => record_call (Call_stop commID false)) s
    = Py.Ok tt s'
    /\ calls s' = calls s ++ ((fun kc => Call_stop kc.1 false) <$> l)
    /\ _containers s' = _containers s.
Proof.
  revert s. induction l as [|[k c] l IH]; intros s; simpl.
  - eexists. split; [reflexivity|]. by rewrite app_nil_r.
  - unfold Py.bind at 1. simpl.
    destruct (IH (set_calls (fun l0 => l0 ++ [Call_stop k false]) s))
      as (s' & -> & E1 & E2).
    exists s'. split; [done|]. rewrite E1, E2. simpl. by rewrite <- app_assoc.
Qed.

(** [SatelliteManager.shutdown] calls [stop()] (without the communication
    manager) on every registered container, empties the map and returns at
    once: it waits for nothing. *)
Lemma shutdown_returns_at_once (s : state) :
  exists s',
    shutdown s = Py.Ok tt s'
    /\ _containers s' = ∅
    /\ calls s'
       = calls s ++ ((fun kc => Call_stop kc.1 false) <$> map_to_list (_containers s)).
Proof.
  unfold shutdown, Py.bind at 1, Py.get.
  destruct (for_each_record_stop (map_to_list (_containers s)) s) as (s1 & E & C & _).
  unfold Py.bind. rewrite E. eexists. split; [reflexivity|]. by split.
Qed.

(** ** Scenarios *)

(** A robot asks for a container; the home folder and the address arrive;
    the container is started and registered. Another robot cannot destroy
    it; the owner can. *)
Example create_then_destroy :
  let s := after [CreateContainer "robot-A";
                  RobotSpecsArrived 0 (VStr "/home/ros/A");
                  SetNewCommID "SATL0042"] in
  getSatelliteRouting s = ["SATL0042"]
  /\ calls s = [Call_start "SATL0042"]
  /\ _pendingCommIDReq s = []
  /\ Py.raised (destroyContainer "robot-B" "SATL0042" s)
     = Some (Py.InvalidRequest "Robot is not the owner of the container.")
  /\ getSatelliteRouting
       (Py.state_of (destroyContainer "robot-A" "SATL0042" s)) = [].
Proof. repeat split; vm_compute; reflexivity. Qed.

(** The lookup of the home folder fails: one message is logged and nothing
    is registered. *)
Example create_without_home_folder :
  let s := after [CreateContainer "robot-A";
                  RobotSpecsArrived 0 (VFailure (Py.InternalError "no such robot"));
                  SetNewCommID "SATL0042"] in
  getSatelliteRouting s = []
  /\ calls s = []
  /\ log s = ["Could not get necessary data to start a new container."].
Proof. repeat split; vm_compute; reflexivity. Qed.

End SatelliteManagerFacts.

(** * The satellite manager, step by step *)

Section SatelliteStepsFacts.

Import SatelliteManager SatelliteSteps.

Context `{Imports}.

Lemma follows_ret {A} (a : A) : follows evolves (Py.ret a).
Proof. intros s. apply rtc_refl. Qed.

Lemma follows_raise {A} e : follows evolves (@Py.raise state A e).
Proof. intros s. apply rtc_refl. Qed.

Lemma follows_get : follows evolves (@Py.get state).
Proof. intros s. apply rtc_refl. Qed.

Lemma follows_modify (f : state -> state) :
  (forall s, evolves s (f s)) -> follows evolves (Py.modify f).
Proof. intros Hf s. apply Hf. Qed.

Lemma follows_bind {A B} (m : Py.M state A) (k : A -> Py.M state B) :
  follows evolves m -> (forall a, follows evolves (k a)) ->
  follows evolves (Py.bind m k).
Proof.
  intros Hm Hk s. unfold Py.bind. specialize (Hm s).
  destruct (m s) as [a s'|e s']; simpl in *; [|done].
  etrans; [exact Hm | apply Hk].
Qed.

Lemma follows_for_each {A} (l : list A) (body : A -> Py.M state unit) :
  (forall x, follows evolves (body x)) -> follows evolves (Py.for_each l body).
Proof.
  intros Hb. induction l as [|x l IH]; simpl.
  - apply follows_ret.
  - apply follows_bind; [apply Hb | intros _; exact IH].
Qed.

Lemma follows_log_msg m : follows evolves (log_msg m).
Proof. intros s. apply rtc_once, atomic_log. Qed.

Lemma follows_record_call c : follows evolves (record_call c).
Proof. intros s. apply rtc_once, atomic_call. Qed.

Lemma follows_item results i : follows evolves (item results i).
Proof.
  intros s. unfold item. destruct (results !! i) as [[r|]|]; apply rtc_refl.
Qed.

Lemma follows_processRobotSpecs results :
  follows evolves (processRobotSpecs results).
Proof.
  unfold processRobotSpecs.
  apply follows_bind; [apply follows_item | intros r0].
  destruct (negb r0.1); [apply follows_log_msg|].
  apply follows_bind; [apply follows_item | intros r1].
  destruct (negb r1.1); [apply follows_log_msg|].
  destruct r0.2 as [|home|]; try apply follows_raise.
  destruct r1.2 as [|commID|]; try apply follows_raise.
  intros s. unfold Py.bind, Py.get.
  destruct (validateAddress commID) eqn:Hv; simpl; [|apply follows_log_msg].
  case_bool_decide as Hin; [apply follows_log_msg|].
  destruct (OS.isdir (fs s) home) eqn:Hd; simpl; [|apply follows_log_msg].
  apply rtc_once, atomic_insert; [done| |done].
  destruct (_containers s !! commID) eqn:E; [|done]. exfalso. apply Hin. eauto.
Qed.

Lemma run_list_callback_evolves results s cb :
  evolves s (run_list_callback results s cb).
Proof. destruct cb. apply follows_processRobotSpecs. Qed.

Lemma fold_run_list_callback_evolves results cbs s :
  evolves s (fold_left (run_list_callback results) cbs s).
Proof.
  revert s. induction cbs as [|cb cbs IH]; intros s; simpl; [apply rtc_refl|].
  etrans; [apply run_list_callback_evolves | apply IH].
Qed.

Lemma DeferredList_callback_evolves dl s :
  evolves s (DeferredList_callback dl s).
Proof.
  unfold DeferredList_callback.
  destruct (deferredLists s !! dl) as [L|]; [|apply rtc_refl].
  etrans; [apply rtc_once, atomic_deferredLists|].
  apply fold_run_list_callback_evolves.
Qed.

Lemma _cbDeferred_evolves dl index v s : evolves s (_cbDeferred dl index v s).
Proof.
  unfold _cbDeferred.
  destruct (deferredLists s !! dl) as [L|]; [|apply rtc_refl].
  match goal with |- context [if ?b then _ else _] => destruct b end.
  - etrans; [apply rtc_once, atomic_deferredLists|].
    apply DeferredList_callback_evolves.
  - apply rtc_once, atomic_deferredLists.
Qed.

Lemma fold_run_callback_evolves v cbs s :
  evolves s (fold_left (run_callback v) cbs s).
Proof.
  revert s. induction cbs as [|[dl index] cbs IH]; intros s; simpl;
    [apply rtc_refl|].
  etrans; [apply _cbDeferred_evolves | apply IH].
Qed.

Lemma follows_Deferred_callback d v : follows evolves (Deferred_callback d v).
Proof.
  intros s. unfold Deferred_callback.
  destruct (deferreds s !! d) as [D|]; [|apply rtc_refl].
  destruct (called D); [apply rtc_refl|]. simpl.
  etrans; [apply rtc_once, atomic_deferreds|].
  apply fold_run_callback_evolves.
Qed.

Lemma follows_Deferred_addCallbacks d cb :
  follows evolves (Deferred_addCallbacks d cb).
Proof.
  intros s. unfold Deferred_addCallbacks.
  destruct (deferreds s !! d) as [D|]; [|apply rtc_refl].
  destruct (called D); simpl.
  - destruct cb. apply _cbDeferred_evolves.
  - apply rtc_once, atomic_deferreds.
Qed.

Lemma follows_DeferredList_new ds : follows evolves (DeferredList_new ds).
Proof.
  unfold DeferredList_new.
  apply follows_bind; [apply follows_get | intros self].
  apply follows_bind.
  { apply follows_modify. intros s. apply rtc_once, atomic_deferredLists. }
  intros _. apply follows_bind.
  { destruct (_ =? _)%nat; [|apply follows_ret].
    apply follows_modify. intros s. apply DeferredList_callback_evolves. }
  intros _. apply follows_bind; [|intros _; apply follows_ret].
  apply follows_for_each. intros [index d]. apply follows_Deferred_addCallbacks.
Qed.

Lemma follows_DeferredList_addCallback dl cb :
  follows evolves (DeferredList_addCallback dl cb).
Proof.
  intros s. unfold DeferredList_addCallback.
  destruct (deferredLists s !! dl) as [L|]; [|apply rtc_refl].
  destruct (list_called L); simpl.
  - apply run_list_callback_evolves.
  - apply rtc_once, atomic_deferredLists.
Qed.

Lemma follows_Deferred_new : follows evolves Deferred_new.
Proof. intros s. apply rtc_once, atomic_deferreds. Qed.

Lemma follows__getNewCommID : follows evolves _getNewCommID.
Proof.
  unfold _getNewCommID.
  apply follows_bind; [apply follows_Deferred_new | intros d].
  apply follows_bind.
  { apply follows_modify. intros s. apply rtc_once, atomic_pending. }
  intros _. apply follows_bind; [|intros _; apply follows_ret].
  intros s. apply rtc_once, atomic_request.
Qed.

Lemma follows__getRobotSpecs robotID : follows evolves (_getRobotSpecs robotID).
Proof.
  unfold _getRobotSpecs.
  apply follows_bind; [apply follows_Deferred_new | intros d].
  apply follows_bind; [|intros _; apply follows_ret].
  apply follows_modify. intros s. apply rtc_once, atomic_db.
Qed.

Lemma follows_createContainer robotID : follows evolves (createContainer robotID).
Proof.
  unfold createContainer.
  apply follows_bind; [apply follows__getRobotSpecs | intros d0].
  apply follows_bind; [apply follows__getNewCommID | intros d1].
  apply follows_bind; [apply follows_DeferredList_new | intros dl].
  apply follows_DeferredList_addCallback.
Qed.

Lemma follows_setNewCommID commID : follows evolves (setNewCommID commID).
Proof.
  unfold setNewCommID.
  apply follows_bind; [apply follows_get | intros self].
  destruct (Py.pop _) as [[d rest]|]; [|apply follows_raise].
  apply follows_bind; [|intros _; apply follows_Deferred_callback].
  apply follows_modify. intros s. apply rtc_once, atomic_pending.
Qed.

Lemma follows__getContainer robotID containerID :
  follows evolves (_getContainer robotID containerID).
Proof.
  intros s. unfold _getContainer, Py.bind, Py.get.
  destruct (_containers s !! containerID) as [c|]; [|apply rtc_refl].
  destruct (negb _); apply rtc_refl.
Qed.

(** Whatever reaches the manager, its state changes by single steps. *)
Lemma handle_evolves s r : evolves s (handle s r).
Proof.
  destruct r; simpl.
  - apply follows_createContainer.
  - apply follows_bind; [apply follows__getContainer | intros c].
    apply follows_bind; [apply follows_record_call | intros _].
    apply follows_modify. intros s'. apply rtc_once, atomic_delete.
  - unfold authenticateContainerConnection.
    apply follows_bind; [apply follows_get | intros self].
    destruct (negb _); [|apply follows_ret].
    apply follows_bind; [apply follows_log_msg | intros _; apply follows_ret].
  - unfold setConnectedFlagContainer, Py.bind, Py.get.
    destruct (_containers s !! commID) as [c|] eqn:Hc.
    + apply rtc_once. by apply atomic_flag.
    + destruct flag; apply rtc_refl.
  - apply follows_bind; [apply follows__getContainer | intros c].
    apply follows_record_call.
  - apply follows_bind; [apply follows__getContainer | intros c].
    apply follows_record_call.
  - apply follows_bind; [apply follows__getContainer | intros c].
    apply follows_record_call.
  - apply follows_bind; [apply follows__getContainer | intros c].
    apply follows_record_call.
  - apply follows_setNewCommID.
  - unfold robotSpecsArrived.
    apply follows_bind; [apply follows_get | intros self].
    case_bool_decide; [apply follows_Deferred_callback | apply follows_ret].
  - unfold shutdown.
    apply follows_bind; [apply follows_get | intros self].
    apply follows_bind.
    + apply follows_for_each. intros [k c]. apply follows_record_call.
    + intros _. apply follows_modify. intros s'. apply rtc_once, atomic_clear.
Qed.

Lemma fold_handle_evolves rs s0 s :
  evolves s0 s -> evolves s0 (fold_left handle rs s).
Proof.
  revert s. induction rs as [|r rs IH]; intros s Hs; simpl; [done|].
  apply IH. etrans; [exact Hs | apply handle_evolves].
Qed.

Lemma reachable_evolves s : reachable s -> exists host, evolves (init host) s.
Proof.
  intros (host & rs & ->). exists host. apply fold_handle_evolves, rtc_refl.
Qed.

(** An invariant of the single steps that holds at the start holds in
    every state the manager can reach. *)
Lemma reachable_invariant (I : state -> Prop) :
  (forall host, I (init host)) ->
  (forall s s', atomic s s' -> I s -> I s') ->
  forall s, reachable s -> I s.
Proof.
  intros H0 Hstep s (host & Hev)%reachable_evolves.
  revert s Hev. apply rtc_ind_r; [apply H0|].
  intros s1 s2 _ Hs I1. by eapply Hstep.
Qed.

Lemma evolves_invariant (I : state -> Prop) s0 s :
  (forall s s', atomic s s' -> I s -> I s') -> evolves s0 s -> I s0 -> I s.
Proof.
  intros Hstep Hev. induction Hev as [|s1 s2 s3 Hs _ IH]; [done|].
  intros I1. apply IH. by eapply Hstep.
Qed.

Lemma atomic_fs s s' : atomic s s' -> fs s' = fs s.
Proof. by destruct 1. Qed.

Lemma atomic_sent s s' :
  atomic s s' ->
  Forall (fun m => m = ID_REQUEST_message) (sent s) ->
  Forall (fun m => m = ID_REQUEST_message) (sent s').
Proof.
  destruct 1; simpl; try done.
  intros Hs. apply Forall_app. split; [done|]. by apply Forall_singleton.
Qed.

(** Property X1: whatever requests, responses and lookup results reach the
    satellite manager, its own methods never change the disk, and every
    message they hand to the communication manager is an [ID_REQUEST] to
    the master without content: the manager itself sends no [ID_DELETE],
    [START_CONTAINER] or [STOP_CONTAINER]. What the methods of
    [Container] do with the communication manager they are given is
    outside the sources; their calls are recorded, not followed. *)
Theorem manager_sends_only_ID_REQUEST (host : OS.filesystem) (rs : list request) :
  fs (fold_left handle rs (init host)) = host
  /\ Forall (fun m => m = ID_REQUEST_message)
            (sent (fold_left handle rs (init host))).
Proof.
  pose proof (fold_handle_evolves rs (init host) (init host) (rtc_refl _ _)) as Hev.
  split.
  - apply (evolves_invariant (fun s => fs s = host) (init host)); [|done..].
    intros s s' Hs <-. by apply atomic_fs.
  - apply (evolves_invariant _ (init host) _ atomic_sent Hev). constructor.
Qed.

Lemma atomic_records_as_built s s' :
  atomic s s' -> records_as_built s -> records_as_built s'.
Proof.
  destruct 1 as [f s|f s|f s|f s|m s|s|c s|k h s Hv Hn Hd|k c flag s Hc|k s|s];
    intros Hr; try exact Hr; intros k' c'; simpl.
  - destruct (decide (k = k')) as [->|Hne].
    + rewrite lookup_insert_eq. intros [= <-]. split; [done|].
      exists h. split; [done|]. by destruct (Container_init k' h).
    + rewrite lookup_insert_ne by done. apply Hr.
  - destruct (decide (k = k')) as [->|Hne].
    + rewrite lookup_insert_eq. intros [= <-].
      destruct (Hr k' c Hc) as (Hv & h & Hd & E). split; [done|].
      exists h. split; [done|]. rewrite E at 1. reflexivity.
    + rewrite lookup_insert_ne by done. apply Hr.
  - intros [_ Hl]%lookup_delete_Some. by apply Hr.
  - by rewrite lookup_empty.
Qed.

(** Property X2: in every state the satellite manager can reach, each
    registered record sits under a valid address and is the record the
    constructor built for that very address and for a home folder that is
    a directory; only its connected flag may differ. *)
Theorem manager_records_as_built (host : OS.filesystem) (rs : list request) :
  records_as_built (fold_left handle rs (init host)).
Proof.
  apply (evolves_invariant _ (init host) _ atomic_records_as_built).
  - apply fold_handle_evolves, rtc_refl.
  - intros k c. simpl. by rewrite lookup_empty.
Qed.

Lemma atomic_registered_started s s' :
  atomic s s' -> registered_started s -> registered_started s'.
Proof.
  destruct 1 as [f s|f s|f s|f s|m s|s|c s|k h s Hv Hn Hd|k c flag s Hc|k s|s];
    intros Hr; try exact Hr; intros k'; simpl.
  - intros Hk. apply elem_of_app. left. by apply Hr.
  - destruct (decide (k = k')) as [->|Hne].
    + intros _. apply elem_of_app. right. apply list_elem_of_here.
    + rewrite lookup_insert_ne by done. intros Hk.
      apply elem_of_app. left. by apply Hr.
  - destruct (decide (k = k')) as [->|Hne].
    + intros _. apply Hr. by exists c.
    + rewrite lookup_insert_ne by done. apply Hr.
  - intros [c' [_ Hl]%lookup_delete_Some]. apply Hr. by exists c'.
  - rewrite lookup_empty. by intros [? ?].
Qed.

(** Property X3: in every state the satellite manager can reach, every
    registered container has had [start] called on it: no record enters
    the map without having been started. *)
Theorem manager_registered_started (host : OS.filesystem) (rs : list request) :
  registered_started (fold_left handle rs (init host)).
Proof.
  apply (evolves_invariant _ (init host) _ atomic_registered_started).
  - apply fold_handle_evolves, rtc_refl.
  - intros k. simpl. rewrite lookup_empty. by intros [? ?].
Qed.

End SatelliteStepsFacts.

(** * More on the satellite manager *)

Section SatelliteManagerMore.

Import SatelliteManager.

(** Property X4: when the owner destroys a registered container, the call
    returns, [stop] is called on the container with the communication
    manager, and exactly that record leaves the map, the queue, the
    deferreds and the sent messages being as before. Afterwards the
    address is no longer announced for routing, the other addresses are,
    a connection from it is no longer authenticated, and destroying it a
    second time raises [InvalidRequest]. *)
Theorem destroyContainer_by_owner (s : state) (robotID containerID : string)
    (c : Container) :
  _containers s !! containerID = Some c ->
  robotID = ownerRobot c ->
  exists s',
    destroyContainer robotID containerID s = Py.Ok tt s'
    /\ _containers s' = delete containerID (_containers s)
    /\ calls s' = calls s ++ [Call_stop containerID true]
    /\ books s' = books s /\ sent s' = sent s
    /\ (containerID ∉ getSatelliteRouting s')
    /\ (forall a, a <> containerID ->
          a ∈ getSatelliteRouting s' <-> a ∈ getSatelliteRouting s)
    /\ (exists s'' m, authenticateContainerConnection containerID s'
                      = Py.Ok false s'' /\ log s'' = log s' ++ [m])
    /\ (exists msg, destroyContainer robotID containerID s'
                    = Py.Raise (Py.InvalidRequest msg) s').
Proof.
  intros Hc Ho.
  set (s' := set_containers (delete containerID)
               (set_calls (fun l => l ++ [Call_stop containerID true]) s)).
  assert (E : destroyContainer robotID containerID s = Py.Ok tt s').
  { unfold destroyContainer, Py.bind at 1.
    by rewrite (_getContainer_accepts s robotID containerID c Hc Ho). }
  assert (Hgone : _containers s' !! containerID = None) by apply lookup_delete_eq.
  exists s'. split; [exact E|].
  split; [done|]. split; [done|]. split; [done|]. split; [done|].
  split; [|split; [|split]].
  - intros Hin%elem_of_getSatelliteRouting. rewrite Hgone in Hin. by destruct Hin.
  - intros a Ha. rewrite !elem_of_getSatelliteRouting.
    change (_containers s') with (delete containerID (_containers s)).
    by rewrite lookup_delete_ne.
  - unfold authenticateContainerConnection, Py.bind, Py.get.
    rewrite bool_decide_eq_false_2 by (rewrite Hgone; by intros [? ?]).
    eexists _, _. split; reflexivity.
  - destruct (_getContainer_rejects s' robotID containerID) as [msg E']; [by left|].
    exists msg. unfold destroyContainer, Py.bind. by rewrite E'.
Qed.

(** Robot A destroys its container. *)
Lemma destroyContainer_by_owner_witness :
  let s := after [CreateContainer "robot-A";
                  RobotSpecsArrived 0 (VStr "/home/ros/A");
                  SetNewCommID "SATL0042"] in
  exists c s',
    _containers s !! "SATL0042" = Some c
    /\ "robot-A" = ownerRobot c
    /\ destroyContainer "robot-A" "SATL0042" s = Py.Ok tt s'
    /\ _containers s' = delete "SATL0042" (_containers s).
Proof.
  intros s.
  assert (Hc : _containers s !! "SATL0042"
               = Some (@Container_init example_imports "SATL0042" "/home/ros/A"))
    by (vm_compute; reflexivity).
  destruct (destroyContainer_by_owner s "robot-A" "SATL0042" _ Hc eq_refl)
    as (s' & E & D & _).
  eexists _, s'. split; [exact Hc|]. split; [reflexivity|]. by split.
Defined.

(** Property X5: [authenticateContainerConnection] returns, with the map
    as it was; the answer is true exactly for a registered address, true
    leaves the whole state as it was and false logs one message. The
    answer does not look at the connected flag: it is the same after the
    flag of the address has been set to any value. *)
Theorem authenticateContainerConnection_registered (s : state) (commID : string) :
  exists b s',
    authenticateContainerConnection commID s = Py.Ok b s'
    /\ (b = true <-> is_Some (_containers s !! commID))
    /\ _containers s' = _containers s
    /\ (if b then s' = s else exists m, log s' = log s ++ [m])
    /\ (forall flag, exists s'',
          authenticateContainerConnection commID
            (Py.state_of (setConnectedFlagContainer commID flag s))
          = Py.Ok b s'').
Proof.
  unfold authenticateContainerConnection, setConnectedFlagContainer,
    Py.bind, Py.get.
  destruct (_containers s !! commID) as [c|] eqn:Hc.
  - rewrite bool_decide_eq_true_2 by eauto. simpl.
    exists true, s. repeat split; eauto.
    intros flag. cbn. rewrite lookup_insert_eq.
    rewrite bool_decide_eq_true_2 by eauto. by eexists.
  - rewrite bool_decide_eq_false_2 by (by intros [? ?]). simpl.
    eexists false, _. split; [reflexivity|].
    split; [split; [done | by intros [? ?]]|].
    split; [done|]. split; [by eexists|].
    intros flag. destruct flag; cbn; rewrite Hc;
      rewrite bool_decide_eq_false_2 by (by intros [? ?]); by eexists.
Qed.

Lemma for_each_record_stop_state (l : list (string * Container)) s :
  Py.for_each l (fun '(commID, container) => record_call (Call_stop commID false)) s
  = Py.Ok tt (set_calls (fun c => c ++ ((fun kc => Call_stop kc.1 false) <$> l)) s).
Proof.
  revert s. induction l as [|[k c] l IH]; intros s; simpl.
  - unfold Py.ret. f_equal. destruct s. unfold set_calls. cbn.
    by rewrite app_nil_r.
  - unfold Py.bind at 1. simpl. rewrite IH. f_equal.
    destruct s. unfold set_calls. cbn. by rewrite <- app_assoc.
Qed.

(** Property X6: [SatelliteManager.shutdown] returns at once. It calls
    [stop()], without the communication manager, once on every registered
    container, in the order in which the addresses are announced for
    routing, and empties the map. It sends nothing and leaves the queue of
    pending address requests and their deferreds as they are: a pending
    request is neither answered nor cancelled. *)
Theorem shutdown_stops_all_keeps_pending (s : state) :
  exists s',
    shutdown s = Py.Ok tt s'
    /\ _containers s' = ∅
    /\ getSatelliteRouting s' = []
    /\ calls s'
       = calls s ++ ((fun commID => Call_stop commID false) <$> getSatelliteRouting s)
    /\ books s' = books s
    /\ sent s' = sent s /\ log s' = log s.
Proof.
  unfold shutdown, Py.bind at 1, Py.get.
  unfold Py.bind. rewrite for_each_record_stop_state.
  eexists. split; [reflexivity|]. cbn.
  split; [done|]. split; [done|]. split; [|done].
  unfold getSatelliteRouting. by rewrite <- list_fmap_compose.
Qed.

End SatelliteManagerMore.

(** * From [createContainer] to [processRobotSpecs] *)

Section SatelliteJoinFacts.

Import SatelliteManager SatelliteSteps SatelliteJoin.

Context `{Imports}.

Lemma bind_ok {S A B} (m : Py.M S A) (k : A -> Py.M S B) s a s1 :
  m s = Py.Ok a s1 -> Py.bind m k s = k a s1.
Proof. intros E. unfold Py.bind. by rewrite E. Qed.

Lemma Deferred_addCallbacks_unfired d cb s D :
  deferreds s !! d = Some D -> called D = false ->
  Deferred_addCallbacks d cb s
  = Py.Ok tt (set_deferreds
                <[d := {| callbacks := callbacks D ++ [cb]; called := false;
                          result := result D |}]> s).
Proof. intros HD HC. unfold Deferred_addCallbacks. by rewrite HD, HC. Qed.

Lemma lookup_snoc2_0 {A} (l : list A) x y : (l ++ [x; y]) !! length l = Some x.
Proof. by rewrite list_lookup_middle. Qed.

Lemma lookup_snoc2_1 {A} (l : list A) x y : (l ++ [x; y]) !! S (length l) = Some y.
Proof.
  rewrite lookup_app_r by lia. by replace (S (length l) - length l) with 1 by lia.
Qed.

Lemma insert_snoc2_0 {A} (l : list A) x y z :
  <[length l := z]> (l ++ [x; y]) = l ++ [z; y].
Proof. rewrite insert_app_r_alt by lia. by rewrite Nat.sub_diag. Qed.

Lemma insert_snoc2_1 {A} (l : list A) x y z :
  <[S (length l) := z]> (l ++ [x; y]) = l ++ [x; z].
Proof.
  rewrite insert_app_r_alt by lia.
  by replace (S (length l) - length l) with 1 by lia.
Qed.

Lemma lookup_snoc {A} (l : list A) x : (l ++ [x]) !! length l = Some x.
Proof. by rewrite list_lookup_middle. Qed.

Lemma insert_snoc {A} (l : list A) x z : <[length l := z]> (l ++ [x]) = l ++ [z].
Proof. rewrite insert_app_r_alt by lia. by rewrite Nat.sub_diag. Qed.

Lemma state_ext (s s' : state) :
  _containers s = _containers s' ->
  _pendingCommIDReq s = _pendingCommIDReq s' ->
  deferreds s = deferreds s' ->
  deferredLists s = deferredLists s' ->
  db_requests s = db_requests s' ->
  sent s = sent s' ->
  log s = log s' ->
  fs s = fs s' ->
  calls s = calls s' ->
  s = s'.
Proof. destruct s, s'; simpl. by intros -> -> -> -> -> -> -> -> ->. Qed.

Ltac proj :=
  cbn [_containers _pendingCommIDReq deferreds deferredLists db_requests sent
       log fs calls callbacks called result resultList finishedCount
       list_called list_callbacks set_deferredLists set_deferreds set_sent
       set_pendingCommIDReq set_db_requests set_containers set_log set_calls
       fresh_Deferred fired_Deferred created joined Py.state_of
       fold_left run_callback run_list_callback length negb andb Nat.eqb].

Lemma createContainer_created robotID s :
  createContainer robotID s = Py.Ok tt (created robotID s).
Proof.
  destruct s as [cont pend defs dls db snt lg f cl].
  unfold createContainer.
  erewrite bind_ok by reflexivity.
  erewrite bind_ok by reflexivity.
  unfold DeferredList_new.
  erewrite (bind_ok (Py.bind Py.get _)).
  2: { erewrite bind_ok by reflexivity.
       erewrite bind_ok by reflexivity.
       erewrite bind_ok by reflexivity.
       cbn [imap Py.for_each length].
       erewrite bind_ok.
       2: { erewrite bind_ok.
            2: { apply Deferred_addCallbacks_unfired; cbn.
                 - rewrite <- app_assoc. apply lookup_snoc2_0.
                 - reflexivity. }
            erewrite bind_ok.
            2: { apply Deferred_addCallbacks_unfired; cbn.
                 - rewrite <- app_assoc. cbn. rewrite insert_snoc2_0.
                   rewrite length_app. cbn. rewrite Nat.add_1_r.
                   apply lookup_snoc2_1.
                 - reflexivity. }
            reflexivity. }
       reflexivity. }
  unfold DeferredList_addCallback. proj.
  rewrite lookup_snoc. proj. f_equal.
  apply state_ext; proj; try reflexivity.
  - by rewrite length_app, Nat.add_1_r.
  - rewrite length_app. cbn [length]. rewrite Nat.add_1_r, <- app_assoc.
    cbn [app]. by rewrite insert_snoc2_0, insert_snoc2_1.
  - by rewrite insert_snoc.
Qed.

Lemma Deferred_callback_unfired d v s D :
  deferreds s !! d = Some D -> called D = false ->
  Deferred_callback d v s
  = Py.Ok tt (fold_left (run_callback v) (callbacks D)
                (set_deferreds <[d := fired_Deferred v]> s)).
Proof. intros HD HC. unfold Deferred_callback. by rewrite HD, HC. Qed.

Lemma robotSpecsArrived_created robotID v s :
  robotSpecsArrived (length (deferreds s)) v (created robotID s)
  = Py.Ok tt (after_specs robotID v s).
Proof.
  unfold robotSpecsArrived, Py.bind at 1, Py.get.
  rewrite bool_decide_eq_true_2.
  2: { proj. rewrite fmap_app. apply elem_of_app. right.
       apply list_elem_of_here. }
  erewrite Deferred_callback_unfired;
    [|proj; apply lookup_snoc2_0|reflexivity].
  f_equal. proj. unfold _cbDeferred. proj.
  rewrite lookup_snoc. proj.
  change (<[0:=Some (negb (is_Failure v), v)]> [None; None])
    with [Some (negb (is_Failure v), v); @None (bool * value)].
  proj.
  apply state_ext; unfold after_specs; proj; try reflexivity.
  - by rewrite insert_snoc2_0.
  - by rewrite insert_snoc.
Qed.

Lemma setNewCommID_after_specs robotID v commID s :
  setNewCommID commID (after_specs robotID v s)
  = Py.Ok tt (Py.state_of (processRobotSpecs (join_results v commID)
                             (joined robotID v commID s))).
Proof.
  unfold setNewCommID, Py.bind at 1, Py.get.
  unfold after_specs at 1. proj.
  rewrite pop_snoc. unfold Py.bind, Py.modify.
  erewrite Deferred_callback_unfired;
    [|unfold after_specs; proj; apply lookup_snoc2_1|reflexivity].
  f_equal. proj. unfold _cbDeferred. unfold after_specs. proj.
  rewrite lookup_snoc. proj.
  change (<[1:=Some (negb (is_Failure (VStr commID)), VStr commID)]>
            [Some (negb (is_Failure v), v); None])
    with [Some (negb (is_Failure v), v); Some (true, VStr commID)].
  proj.
  unfold DeferredList_callback. proj. rewrite insert_snoc, lookup_snoc. proj.
  unfold join_results. f_equal. f_equal.
  apply state_ext; proj; try reflexivity.
  - rewrite insert_snoc2_1. reflexivity.
  - rewrite insert_snoc. rewrite insert_snoc. reflexivity.
Qed.

Lemma setNewCommID_created robotID commID s :
  setNewCommID commID (created robotID s)
  = Py.Ok tt (after_commID robotID commID s).
Proof.
  unfold setNewCommID, Py.bind at 1, Py.get. proj.
  rewrite pop_snoc. unfold Py.bind, Py.modify.
  erewrite Deferred_callback_unfired;
    [|proj; apply lookup_snoc2_1|reflexivity].
  f_equal. proj. unfold _cbDeferred. proj.
  rewrite lookup_snoc. proj.
  change (<[1:=Some (negb (is_Failure (VStr commID)), VStr commID)]> [None; None])
    with [@None (bool * value); Some (true, VStr commID)].
  proj.
  apply state_ext; unfold after_commID; proj; try reflexivity.
  - rewrite insert_snoc2_1. reflexivity.
  - rewrite insert_snoc. reflexivity.
Qed.

Lemma robotSpecsArrived_after_commID robotID v commID s :
  robotSpecsArrived (length (deferreds s)) v (after_commID robotID commID s)
  = Py.Ok tt (Py.state_of (processRobotSpecs (join_results v commID)
                             (joined robotID v commID s))).
Proof.
  unfold robotSpecsArrived, Py.bind at 1, Py.get.
  rewrite bool_decide_eq_true_2.
  2: { unfold after_commID. proj. rewrite fmap_app. apply elem_of_app. right.
       apply list_elem_of_here. }
  erewrite Deferred_callback_unfired;
    [|unfold after_commID; proj; apply lookup_snoc2_0|reflexivity].
  f_equal. proj. unfold _cbDeferred. unfold after_commID. proj.
  rewrite lookup_snoc. proj.
  change (<[0:=Some (negb (is_Failure v), v)]> [None; Some (true, VStr commID)])
    with [Some (negb (is_Failure v), v); Some (true, VStr commID)].
  proj.
  unfold DeferredList_callback. proj. rewrite insert_snoc, lookup_snoc. proj.
  unfold join_results. f_equal. f_equal.
  apply state_ext; proj; try reflexivity.
  - rewrite insert_snoc2_0. reflexivity.
  - rewrite insert_snoc. rewrite insert_snoc. reflexivity.
Qed.

(** Property X7: [createContainer] only sets the two lookups going: it
    returns with two new deferreds joined by a list, one more pending
    request, one more lookup handed to the metadata client and one more
    [ID_REQUEST], and with the containers, the log and the recorded calls
    as they were. Once the result of the home-folder lookup (a value or a
    failure) and the address have both arrived, in either order,
    [processRobotSpecs] has run exactly once, on the pair of results, and
    this in a state whose queue, containers, log and calls are those from
    before [createContainer]. *)
Theorem createContainer_joins_lookups (s : state) (robotID : string)
    (v : value) (commID : string) :
  let d := length (deferreds s) in
  let s1 := handle s (CreateContainer robotID) in
  let done := Py.state_of (processRobotSpecs (join_results v commID)
                             (joined robotID v commID s)) in
  createContainer robotID s = Py.Ok tt (created robotID s)
  /\ handle (handle s1 (RobotSpecsArrived d v)) (SetNewCommID commID) = done
  /\ handle (handle s1 (SetNewCommID commID)) (RobotSpecsArrived d v) = done.
Proof.
  cbn zeta. cbn [handle]. rewrite createContainer_created. cbn [Py.state_of].
  split; [done|]. split.
  - rewrite robotSpecsArrived_created. cbn [Py.state_of].
    by rewrite setNewCommID_after_specs.
  - rewrite setNewCommID_created. cbn [Py.state_of].
    by rewrite robotSpecsArrived_after_commID.
Qed.

End SatelliteJoinFacts.

(** * Paths of a container *)

Section PathFacts.















End PathFacts.

(** * Setting up a container *)

Ltac flat :=
  unfold ContainerManager.log_msg, ContainerManager.Deferred_new, Py.modify,
    ContainerManager.set_commIDs, ContainerManager.set_fs,
    ContainerManager.set_log, ContainerManager.set_deferreds,
    ContainerManager.set_spawned, ContainerManager.set_frame;
  cbn [ContainerManager._confDir ContainerManager._rootfs
       ContainerManager._srcRoot ContainerManager._commIDs ContainerManager.fs
       ContainerManager.log ContainerManager.deferreds
       ContainerManager.spawned ContainerManager.sent
       ContainerManager.shutting_down].

Section ContainerSetUpFacts.

Import ContainerManager ContainerSetUp.























End ContainerSetUpFacts.

(** * Requests to the container manager *)

Section ContainerPoolFacts.

Import ContainerManager ContainerSetUp ContainerPool.

Section Steady.

(** Parts of the state that only the registry and the processes are kept
    apart from. *)
Context {B : Type} (proj : state -> B).
Hypothesis steady_fs : forall f s, proj (set_fs f s) = proj s.
Hypothesis steady_log : forall f s, proj (set_log f s) = proj s.
Hypothesis steady_deferreds : forall f s, proj (set_deferreds f s) = proj s.
Hypothesis steady_frame : forall f s, proj (set_frame f s) = proj s.

Lemma steady_log_msg e : Py.preserves proj (log_msg e).
Proof. intros s. apply steady_log. Qed.

Lemma steady_on_fs op : Py.preserves proj (on_fs op).
Proof.
  intros s. unfold on_fs. destruct (op (fs s)); [reflexivity | apply steady_fs].
Qed.

Lemma steady_start_callback_body v : Py.preserves proj (start_callback_body v).
Proof.
  destruct v; try apply preserves_raise. simpl.
  apply preserves_bind; [|intros; apply preserves_ret].
  destruct (negb _); [apply steady_log_msg | apply preserves_ret].
Qed.

Lemma steady_stop_callback_body commID v :
  Py.preserves proj (stop_callback_body commID v).
Proof.
  destruct v; try apply preserves_raise. simpl.
  apply preserves_bind.
  { destruct (negb _); [apply steady_log_msg | apply preserves_ret]. }
  intros _. apply preserves_bind; [apply preserves_get | intros self].
  apply preserves_bind; [apply steady_on_fs | intros; apply preserves_ret].
Qed.

Lemma steady_run_callback acc cb : proj (run_callback acc cb).2 = proj acc.2.
Proof.
  destruct acc as [v s]. destruct cb as [|commID|index]; simpl.
  - destruct (is_Failure v); [done|].
    rewrite catch_state. apply steady_start_callback_body.
  - destruct (is_Failure v); [done|].
    rewrite catch_state. apply steady_stop_callback_body.
  - apply steady_frame.
Qed.

Lemma steady_fold_run_callback cbs acc :
  proj (fold_left run_callback cbs acc).2 = proj acc.2.
Proof.
  revert acc. induction cbs as [|cb cbs IH]; intros acc; simpl; [done|].
  rewrite IH. apply steady_run_callback.
Qed.

Lemma steady_Deferred_addCallback d cb :
  Py.preserves proj (Deferred_addCallback d cb).
Proof.
  intros s. unfold Deferred_addCallback.
  destruct (deferreds s !! d) as [D|]; [|done].
  destruct (called D); [|apply steady_deferreds].
  pose proof (steady_run_callback (result D, s) cb) as E.
  destruct (run_callback _ _) as [v s']. simpl in *.
  by rewrite steady_deferreds.
Qed.

Lemma steady_Deferred_callback d v s : proj (Deferred_callback d v s) = proj s.
Proof.
  unfold Deferred_callback.
  destruct (deferreds s !! d) as [D|]; [|done].
  destruct (called D); [done|].
  pose proof (steady_fold_run_callback (callbacks D) (v, s)) as E.
  destruct (fold_left _ _ _) as [v' s']. simpl in *.
  by rewrite steady_deferreds.
Qed.

Lemma steady__startContainer commID homeDir :
  Py.preserves proj (_startContainer commID homeDir).
Proof.
  unfold _startContainer, _createConfigFile, _createFstabFile,
    _createUpstartScript.
  apply preserves_bind; [apply preserves_get | intros self].
  destruct (OS.isdir _ _); [apply steady_log_msg|].
  apply preserves_bind; [apply steady_on_fs | intros _].
  apply preserves_bind; [apply steady_log_msg | intros _].
  apply preserves_bind.
  { apply preserves_bind; [apply preserves_get | intros; apply steady_on_fs]. }
  intros _. apply preserves_bind.
  { destruct (negb _); [apply preserves_raise|].
    apply preserves_bind; [apply preserves_get | intros; apply steady_on_fs]. }
  intros _. apply preserves_bind.
  { apply preserves_bind; [apply preserves_get | intros; apply steady_on_fs]. }
  intros _. apply preserves_bind; [intros s; apply steady_deferreds | intros d].
  apply preserves_bind; [apply steady_Deferred_addCallback | intros _].
  apply preserves_bind; [apply steady_log_msg | intros _].
  apply preserves_ret.
Qed.

Hypothesis steady_spawned : forall f s, proj (set_spawned f s) = proj s.

Lemma steady__stopContainer commID : Py.preserves proj (_stopContainer commID).
Proof.
  unfold _stopContainer.
  apply preserves_bind; [intros s; apply steady_deferreds | intros d].
  apply preserves_bind; [apply steady_Deferred_addCallback | intros _].
  apply preserves_bind; [intros s; apply steady_spawned | intros _].
  apply preserves_ret.
Qed.

Lemma steady_processEnded pid reason s : proj (processEnded pid reason s) = proj s.
Proof.
  unfold processEnded. destruct (spawned s !! pid) as [p|]; [|done].
  destruct (ended p); [done|].
  rewrite steady_Deferred_callback. apply steady_spawned.
Qed.

Lemma steady_DeferredList_new ds : Py.preserves proj (DeferredList_new ds).
Proof.
  unfold DeferredList_new. apply preserves_bind.
  - intros s. apply steady_frame.
  - intros _. apply preserves_for_each. intros [index d].
    apply steady_Deferred_addCallback.
Qed.

Lemma steady_shutdown_enter : Py.preserves proj shutdown_enter.
Proof.
  unfold shutdown_enter.
  apply preserves_bind; [intros s; apply steady_frame | intros _].
  apply preserves_bind; [apply preserves_get | intros self].
  apply preserves_bind;
    [apply preserves_map_each, steady__stopContainer | intros ds].
  apply preserves_bind; [apply steady_DeferredList_new | intros _].
  intros s. apply steady_frame.
Qed.

End Steady.

Lemma startContainer_commIDs commID homeDir s :
  _commIDs (Py.state_of (startContainer commID homeDir s))
  = if Py.contains commID (_commIDs s) then _commIDs s
    else _commIDs s ++ [commID].
Proof.
  unfold startContainer. erewrite state_of_bind by reflexivity.
  destruct (Py.contains commID (_commIDs s)); [done|].
  erewrite state_of_bind by reflexivity.
  by rewrite (steady__startContainer _commIDs).
Qed.

Lemma remove_Some x l :
  x ∈ l -> exists r, remove x l = Some r /\ l ≡ₚ x :: r.
Proof.
  induction l as [|y l IH]; [by intros ?%elem_of_nil|].
  intros Hx. simpl. destruct (String.eqb_spec x y) as [->|Hne].
  - by eexists.
  - apply elem_of_cons in Hx as [->|Hx]; [done|].
    destruct (IH Hx) as (r & -> & Hp). eexists. split; [done|].
    rewrite Hp. apply Permutation_swap.
Qed.

Lemma stopContainer_registered commID t :
  commID ∈ _commIDs (manager t) ->
  exists r,
    remove commID (_commIDs (manager t)) = Some r
    /\ _commIDs (manager t) ≡ₚ commID :: r
    /\ stopContainer commID t
       = Py.Ok tt {| manager := set_commIDs (fun _ => r) (manager t);
                     pool := pool t ++ [commID] |}.
Proof.
  intros Hin. destruct (remove_Some _ _ Hin) as (r & Hr & Hp).
  exists r. split; [done|]. split; [done|].
  unfold stopContainer. erewrite bind_ok by reflexivity.
  unfold Py.contains. rewrite bool_decide_eq_true_2 by done. cbn [negb].
  erewrite bind_ok by reflexivity.
  erewrite bind_ok by reflexivity.
  cbn [manager pool]. by rewrite Hr.
Qed.

Lemma handle_NoDup t r :
  NoDup (_commIDs (manager t)) -> NoDup (_commIDs (manager (handle t r))).
Proof.
  intros Hnd. destruct r as [commID homeDir|commID| |[pid exitCode failure]];
    cbn [handle].
  - unfold lift.
    pose proof (startContainer_commIDs commID homeDir (manager t)) as E.
    destruct (startContainer commID homeDir (manager t)); cbn in *; rewrite E;
      unfold Py.contains; case_bool_decide; try done;
      apply NoDup_app; (split; [done|]); (split; [|apply NoDup_singleton]);
      by intros x Hx ->%list_elem_of_singleton.
  - destruct (decide (commID ∈ _commIDs (manager t))) as [Hin|Hnin].
    + destruct (stopContainer_registered commID t Hin) as (r & _ & Hp & ->).
      cbn. rewrite Hp in Hnd. by apply NoDup_cons in Hnd as [_ ?].
    + unfold stopContainer. erewrite state_of_bind by reflexivity.
      unfold Py.contains. rewrite bool_decide_eq_false_2 by done. done.
  - unfold run_thread. destruct (pool t) as [|commID rest]; [done|].
    cbn [manager]. by rewrite (steady__stopContainer _commIDs).
  - cbn [manager]. by rewrite (steady_processEnded _commIDs).
Qed.

(** Property X10: the registry of the container manager never holds an
    address twice, whatever start and stop requests arrive, whichever of
    them fail, whenever the threads of the pool run and whatever processes
    end. *)
Theorem registry_without_duplicates (t : threaded) (rs : list request) :
  NoDup (_commIDs (manager t)) ->
  NoDup (_commIDs (manager (fold_left handle rs t))).
Proof.
  revert t. induction rs as [|r rs IH]; intros t Hnd; [done|].
  cbn [fold_left]. by apply IH, handle_NoDup.
Qed.

(** Two start requests for one address and a stop request, on a manager
    with an empty registry. *)
Lemma registry_without_duplicates_witness :
  let t := {| manager := host [] ["/"; "/conf"]; pool := [] |} in
  let rs := [StartContainer "SATL0042" "/home/ros/A";
             StartContainer "SATL0042" "/home/ros/A";
             StartContainer "SATL0043" "/home/ros/B";
             StopContainer "SATL0042"] in
  NoDup (_commIDs (manager t))
  /\ NoDup (_commIDs (manager (fold_left handle rs t))).
Proof.
  intros t rs.
  assert (Hnd : NoDup (_commIDs (manager t))) by apply NoDup_nil_2.
  split; [exact Hnd|]. exact (registry_without_duplicates t rs Hnd).
Defined.

Lemma _stopContainer_stopping commID s :
  _stopContainer commID s
  = Py.Ok (length (deferreds s))
      {| _confDir := _confDir s; _rootfs := _rootfs s; _srcRoot := _srcRoot s;
         _commIDs := _commIDs s; fs := fs s; log := log s;
         deferreds := deferreds s
           ++ [{| callbacks := [stop_callback commID]; called := false;
                  result := VNone |}];
         spawned := spawned s
           ++ [{| executable := "/usr/bin/lxc-stop"; argv := lxc_stop commID;
                  protocol := length (deferreds s); ended := false |}];
         sent := sent s; shutting_down := shutting_down s |}.
Proof.
  destruct s as [confDir rootfs srcRoot commIDs disk lg defs sp snt fr].
  unfold _stopContainer.
  erewrite bind_ok by reflexivity. flat.
  unfold Deferred_addCallback at 1.
  erewrite bind_ok; cycle 1.
  { flat. rewrite lookup_app_r by done. rewrite Nat.sub_diag.
    cbn [lookup list_lookup called callbacks result app].
    flat. reflexivity. }
  flat. unfold spawnProcess.
  erewrite bind_ok by reflexivity. flat.
  unfold Py.ret. f_equal. f_equal.
  rewrite insert_app_r_alt by done. by rewrite Nat.sub_diag.
Qed.

Lemma run_threads_spawned t :
  argv <$> spawned (manager (fold_left handle (replicate (length (pool t)) ThreadRuns) t))
  = (argv <$> spawned (manager t)) ++ (lxc_stop <$> pool t)
  /\ pool (fold_left handle (replicate (length (pool t)) ThreadRuns) t) = [].
Proof.
  destruct t as [s p]. revert s. induction p as [|commID p IH]; intros s.
  - cbn. by rewrite app_nil_r.
  - cbn [pool length replicate fold_left handle run_thread manager].
    destruct (IH (Py.state_of (_stopContainer commID s))) as [IH1 IH2].
    cbn [pool manager] in IH1, IH2. rewrite IH1, IH2. split; [|done].
    rewrite _stopContainer_spawned, <- app_assoc. done.
Qed.

(** Property X11: [stopContainer] always returns ([list.remove] cannot
    fail behind the membership test) and itself spawns nothing and
    touches neither the disk nor the deferreds. For an address that is
    not registered it logs one message and that is all. For a registered
    one it takes one occurrence of the address out of the registry (so
    the address is gone when the registry had no duplicates) and hands
    [_stopContainer] to the thread pool: the [lxc-stop] command is issued
    only when the pool gets to it, after the calls queued before. *)
Theorem stopContainer_hands_over (t : threaded) (commID : string) :
  exists t',
    stopContainer commID t = Py.Ok tt t'
    /\ fs (manager t') = fs (manager t)
    /\ spawned (manager t') = spawned (manager t)
    /\ deferreds (manager t') = deferreds (manager t)
    /\ (commID ∉ _commIDs (manager t) ->
        _commIDs (manager t') = _commIDs (manager t)
        /\ pool t' = pool t
        /\ log (manager t')
           = log (manager t)
               ++ [LogMsg "There is no container registered under this CommID."])
    /\ (commID ∈ _commIDs (manager t) ->
        _commIDs (manager t) ≡ₚ commID :: _commIDs (manager t')
        /\ (NoDup (_commIDs (manager t)) -> commID ∉ _commIDs (manager t'))
        /\ log (manager t') = log (manager t)
        /\ pool t' = pool t ++ [commID]
        /\ argv <$> spawned (manager
             (fold_left handle (replicate (length (pool t')) ThreadRuns) t'))
           = (argv <$> spawned (manager t))
               ++ (lxc_stop <$> pool t) ++ [lxc_stop commID]).
Proof.
  destruct (decide (commID ∈ _commIDs (manager t))) as [Hin|Hnin].
  - destruct (stopContainer_registered commID t Hin) as (r & _ & Hp & E).
    eexists. split; [exact E|]. cbn [manager pool set_commIDs fs spawned deferreds
                                     _commIDs log].
    split; [done|]. split; [done|]. split; [done|]. split; [done|].
    intros _. split; [done|]. split.
    { intros Hnd. rewrite Hp in Hnd. by apply NoDup_cons in Hnd as [? _]. }
    split; [done|]. split; [done|].
    match goal with |- context [fold_left handle _ ?t'] =>
      destruct (run_threads_spawned t') as [Hs _]; cbn [pool] in Hs |- * end.
    rewrite Hs. cbn [manager set_commIDs spawned]. by rewrite fmap_app.
  - eexists. split.
    { unfold stopContainer. erewrite bind_ok by reflexivity.
      unfold Py.contains. rewrite bool_decide_eq_false_2 by done. reflexivity. }
    cbn. split; [done|]. split; [done|]. split; [done|]. split; [done|].
    done.
Qed.

(** Property X14: the methods of the container manager never send a
    message: whatever start and stop requests arrive and whatever
    processes end, the messages sent through the communication manager
    are those sent before; in particular the manager reports no status
    of a container and releases no address. *)
Theorem container_manager_never_sends (t : threaded) (rs : list request) :
  sent (manager (fold_left handle rs t)) = sent (manager t).
Proof.
  revert t. induction rs as [|r rs IH]; intros t; [done|].
  cbn [fold_left]. rewrite IH.
  destruct r as [commID homeDir|commID| |[pid exitCode failure]]; cbn [handle].
  - unfold lift.
    pose proof (preserves_startContainer sent stable_sent commID homeDir (manager t)) as E.
    by destruct (startContainer commID homeDir (manager t)).
  - unfold stopContainer, Py.bind, Py.get, Py.contains.
    case_bool_decide; cbn; [|done]. by destruct (remove commID _).
  - unfold run_thread. destruct (pool t) as [|commID rest]; [done|].
    by rewrite _stopContainer_stopping.
  - cbn [manager]. by apply (steady_processEnded sent).
Qed.

Lemma rmtree_lookup p (disk disk' : OS.filesystem) q :
  OS.rmtree p disk = inr disk' ->
  disk' !! q = if (String.eqb q p || OS.below p q)%bool then None else disk !! q.
Proof.
  unfold OS.rmtree. destruct (OS.isdir disk p); [|done]. intros [= <-].
  destruct (String.eqb q p || OS.below p q)%bool eqn:E.
  - apply map_lookup_filter_None. right. intros n _ Hg. cbn [fst] in Hg.
    apply andb_prop in Hg as [H1%negb_true_iff H2%negb_true_iff].
    by rewrite H1, H2 in E.
  - apply orb_false_elim in E as [E1 E2].
    destruct (disk !! q) as [n|] eqn:Hq.
    + apply map_lookup_filter_Some. split; [done|]. cbn [fst]. by rewrite E1, E2.
    + apply map_lookup_filter_None. by left.
Qed.

Lemma rmtree_cases p (disk : OS.filesystem) :
  (OS.isdir disk p = true /\ exists disk', OS.rmtree p disk = inr disk')
  \/ (OS.isdir disk p = false
      /\ OS.rmtree p disk = inl (Py.OSError "No such file or directory")).
Proof. unfold OS.rmtree. destruct (OS.isdir disk p); eauto. Qed.

Lemma processEnded_stopped (s : state) (commID : string) (exitCode : Z)
    (failure : bool) :
  processEnded (length (spawned s)) (VReason exitCode failure)
    (Py.state_of (_stopContainer commID s))
  = stopped commID exitCode failure s.
Proof.
  rewrite _stopContainer_stopping. cbn [Py.state_of].
  destruct s as [confDir rootfs srcRoot commIDs disk lg defs sp snt fr].
  unfold stopped. flat.
  unfold processEnded. flat. rewrite lookup_snoc.
  cbn [ended]. unfold mark_ended. flat. cbn [executable argv protocol].
  rewrite insert_snoc.
  unfold Deferred_callback. flat. rewrite lookup_snoc.
  cbn [called callbacks fold_left run_callback is_Failure].
  destruct failure; cbn [negb andb].
  { flat. by rewrite insert_snoc, app_nil_r. }
  unfold stop_callback_body, Py.bind, Py.get, Py.ret, on_fs.
  destruct (negb (exitCode =? 0)%Z); flat;
    destruct (OS.rmtree (OS.join confDir [commID]) disk) as [e|disk'];
    cbn [catch]; flat; rewrite insert_snoc, ?app_nil_r; reflexivity.
Qed.

(** Property X12: [_stopContainer] spawns the stop command and leaves the
    disk alone; the directory of the container is removed when the
    process ends. If the reason arrives as a plain result, the directory
    and everything below it are gone and every other path is as before,
    and the reason is logged exactly when the exit code is not 0; if the
    directory does not exist the [OSError] of [rmtree] stays inside the
    deferred as its result. If the reason arrives as a failure, the
    callback is skipped: nothing is removed and nothing is logged. The
    registry is not touched either way. *)
Theorem stop_command_cleans_up (s : state) (commID : string) (exitCode : Z)
    (failure : bool) :
  let dir := OS.join (_confDir s) [commID] in
  let reason := VReason exitCode failure in
  let s1 := Py.state_of (_stopContainer commID s) in
  let s2 := processEnded (length (spawned s)) reason s1 in
  fs s1 = fs s
  /\ (forall q,
        fs s2 !! q
        = if (negb failure && OS.isdir (fs s) dir
              && (String.eqb q dir || OS.below dir q))%bool
          then None else fs s !! q)
  /\ log s2
     = log s ++ (if (negb failure && negb (exitCode =? 0)%Z)%bool
                 then [LogObj reason] else [])
  /\ deferreds s2 !! length (deferreds s)
     = Some {| callbacks := []; called := true;
               result := if failure then reason
                         else if OS.isdir (fs s) dir then VNone
                         else VFailure (Py.OSError "No such file or directory") |}
  /\ _commIDs s2 = _commIDs s.
Proof.
  intros dir reason s1 s2. subst s2 s1 reason.
  rewrite processEnded_stopped, _stopContainer_stopping.
  unfold stopped. cbn [Py.state_of fs log deferreds _commIDs].
  fold dir. rewrite lookup_snoc.
  split; [done|].
  destruct failure; cbn [negb andb]; [done|].
  destruct (rmtree_cases dir (fs s)) as [(Hd & disk' & Hrm)|(Hd & Hrm)];
    rewrite Hd, Hrm; cbn [andb]; [|done].
  split; [|done]. intros q. by apply rmtree_lookup.
Qed.

(** Property X13: [ContainerManager.shutdown] reaches [event.wait()]
    having spawned one [lxc-stop] per registered address, in the order of
    registration; it leaves the registry as it is and sends nothing. *)
Theorem shutdown_stops_registered (s : state) :
  exists s1,
    shutdown s = Waiting s1
    /\ argv <$> spawned s1 = (argv <$> spawned s) ++ (lxc_stop <$> _commIDs s)
    /\ _commIDs s1 = _commIDs s
    /\ sent s1 = sent s.
Proof.
  destruct (shutdown_enter_unset s) as (s1 & E & Hev).
  exists s1. unfold shutdown. rewrite E. unfold Event_wait. rewrite Hev.
  split; [done|].
  pose proof (shutdown_enter_spawns_stops s) as Hsp.
  pose proof (steady_shutdown_enter _commIDs) as Hc.
  pose proof (steady_shutdown_enter sent) as Hs.
  specialize (Hc ltac:(done) ltac:(done) ltac:(done) ltac:(done) ltac:(done) s).
  specialize (Hs ltac:(done) ltac:(done) ltac:(done) ltac:(done) ltac:(done) s).
  rewrite E in Hsp, Hc, Hs. done.
Qed.

(** ** A container from start to stop *)














End ContainerPoolFacts.

(** * Connections between satellites *)

Section SatelliteMeshFacts.

Import SatelliteMesh.

Variable PORT : nat.

Lemma connectToSatellites_app pre rest made :
  Forall complete pre ->
  connectToSatellites PORT (pre ++ rest) made
  = connectToSatellites PORT rest (made ++ (connection_of PORT <$> pre)).
Proof.
  intros Hs. revert made. induction Hs as [|sat sats Hsat _ IH]; intros made.
  - cbn. by rewrite app_nil_r.
  - destruct Hsat as [[c Hc] [i Hi]].
    cbn [connectToSatellites app]. rewrite Hc, Hi, IH.
    rewrite fmap_cons. unfold _connectToSatellite.
    unfold connection_of at 2. rewrite Hc, Hi. cbn [default].
    by rewrite <- app_assoc.
Qed.

(** Property X15: [connectToSatellites] asks for one connection per
    dictionary, in the order of the list, each to the given [ip] on the
    satellite port with a factory for the given [commID] that accepts
    [ROUTE_INFO] and [ROS_MSG]; a dictionary listed twice is connected to
    twice. The first dictionary that lacks a key ends the call with a
    [KeyError] for that key ([commID] is looked up first); the
    connections asked for before it stand and the dictionaries after it
    are not looked at. *)
Theorem connectToSatellites_in_order (pre : list (gmap string string))
    (made : list connection) :
  Forall complete pre ->
  connectToSatellites PORT pre made = (None, made ++ (connection_of PORT <$> pre))
  /\ (forall bad rest, ~ complete bad ->
        exists key,
          connectToSatellites PORT (pre ++ bad :: rest) made
          = (Some key, made ++ (connection_of PORT <$> pre))
          /\ bad !! key = None
          /\ (key = "commID" \/ key = "ip" /\ is_Some (bad !! "commID"))).
Proof.
  intros Hs. split.
  { rewrite <- (app_nil_r pre) at 1. by rewrite connectToSatellites_app. }
  intros bad rest Hbad. rewrite connectToSatellites_app by done.
  cbn [connectToSatellites].
  destruct (bad !! "commID") as [c|] eqn:Hc.
  - destruct (bad !! "ip") as [i|] eqn:Hi.
    + destruct Hbad. split; by eexists.
    + exists "ip". split; [done|]. split; [done|]. right. split; [done|by eexists].
  - exists "commID". split; [done|]. split; [done|]. by left.
Qed.

End SatelliteMeshFacts.

(** Two complete dictionaries, and the same followed by one without [ip]. *)
Lemma connectToSatellites_in_order_witness :
  let first : gmap string string := {[ "commID" := "SATL0002"; "ip" := "10.0.0.2" ]} in
  let bad : gmap string string := {[ "commID" := "SATL0003" ]} in
  Forall SatelliteMesh.complete [first; first]
  /\ SatelliteMesh.connectToSatellites 1030 [first; first] []
     = (None, [SatelliteMesh.connection_of 1030 first;
               SatelliteMesh.connection_of 1030 first])
  /\ SatelliteMesh.connectToSatellites 1030 [first; first; bad; first] []
     = (Some "ip", [SatelliteMesh.connection_of 1030 first;
                    SatelliteMesh.connection_of 1030 first]).
Proof.
  intros first bad.
  assert (Hc : Forall SatelliteMesh.complete [first; first]).
  { repeat constructor; by eexists. }
  split; [exact Hc|].
  destruct (connectToSatellites_in_order 1030 [first; first] [] Hc) as [E _].
  split; [exact E|]. vm_compute. reflexivity.
Defined.

(** * The queue of address requests *)

Section SatelliteQueueFacts.

Import SatelliteManager.
Context `{Imports}.

Lemma answer_all_pending_ok commIDs s :
  pending_ok s -> pending_ok (answer_all commIDs s).
Proof.
  revert s. induction commIDs as [|c cs IH]; intros s Hok; [done|].
  change (answer_all (c :: cs) s)
    with (answer_all cs (Py.state_of (setNewCommID c s))).
  by apply IH, setNewCommID_pending_ok.
Qed.

(** Property X16: in every state the satellite manager can reach, the
    queue of pending address requests holds no deferred twice, every
    deferred in it is unfired, and the deferreds handed to the metadata
    client exist and are not in the queue. *)
Theorem manager_pending_unfired (host : OS.filesystem) (rs : list request) :
  pending_ok (fold_left handle rs (init host)).
Proof. apply reachable_pending_ok. by exists host, rs. Qed.

(** Property X17: in every state the satellite manager can reach, as many
    responses as there are requests at the end of the queue answer these
    requests newest first: the last request gets the first response and so
    on backwards. The requests before them stay in the queue, in their
    order, and stay unanswered. *)
Theorem manager_answers_newest_first (host : OS.filesystem) (rs : list request)
    (commIDs : list string) (keep ds : list nat) :
  let s := fold_left handle rs (init host) in
  _pendingCommIDReq s = keep ++ ds ->
  length commIDs = length ds ->
  _pendingCommIDReq (answer_all commIDs s) = keep
  /\ resolved (answer_all commIDs s) <$> ds
     = (fun c => Some (VStr c)) <$> reverse commIDs
  /\ (forall d, d ∈ keep -> resolved (answer_all commIDs s) d = None).
Proof.
  intros s Hp Hlen.
  assert (Hok : pending_ok s) by (apply reachable_pending_ok; by exists host, rs).
  destruct (answer_all_newest_first commIDs s keep ds Hok Hp Hlen) as [E1 E2].
  split; [done|]. split; [done|].
  intros d Hd. apply pending_unresolved; [by apply answer_all_pending_ok|].
  by rewrite E1.
Qed.

End SatelliteQueueFacts.

Section SatelliteQueueExample.

Import SatelliteManager.

(** Three requests are pending; two responses arrive. *)
Lemma manager_answers_newest_first_witness :
  let rs := [CreateContainer "robot-A"; CreateContainer "robot-B";
             CreateContainer "robot-C"] in
  let s := fold_left (@handle example_imports) rs (init example_host) in
  (_pendingCommIDReq s = [1] ++ [3; 5] /\ length ["X1"; "X2"] = length [3; 5])
  /\ _pendingCommIDReq (@answer_all example_imports ["X1"; "X2"] s) = [1]
  /\ resolved (@answer_all example_imports ["X1"; "X2"] s) <$> [3; 5]
     = [Some (VStr "X2"); Some (VStr "X1")].
Proof.
  intros rs s.
  assert (Hp : _pendingCommIDReq s = [1] ++ [3; 5]) by (vm_compute; reflexivity).
  split; [split; [exact Hp|reflexivity]|].
  destruct (@manager_answers_newest_first example_imports example_host rs
              ["X1"; "X2"] [1] [3; 5] Hp eq_refl) as (E1 & E2 & _).
  split; [exact E1|exact E2].
Defined.

End SatelliteQueueExample.
